(** * Order workflow of the e-commerce API

    A shallow embedding of the order service
    (internal/service/interfaces.go: CreateOrder, UpdateOrderStatus,
    ProcessPayment, CancelOrder, GetOrderAnalytics, isValidStatusTransition)
    and of the repository calls it makes
    (internal/repository/product_repository.go), with the properties of the
    order workflow proved about them.

    Conventions.
    - Go [uint] identifiers are [N]; Go [int] is [Z] with the 64-bit
      wrap-around written out ([wrap64]); Go [float64] is Rocq's primitive
      binary64 [float], so totals are computed with the same rounding as the
      service computes them.
    - [OrderStatus], [UserRole] and [PaymentMethod] are Go string types and
      stay strings here: a status received from a client may be any string.
    - The database is a [World]: the products and orders tables as finite
      maps keyed by primary key, together with a schedule of failing round
      trips, the standard output of the process and the calls made to the
      payment gateway.  Repository methods are state-passing functions over
      it: a row is found by its primary key, a unique column holds no
      value twice, and gorm preloads only the relations that the model
      declares. *)

From Stdlib Require Import ZArith Floats Uint63.
From stdpp Require Import gmap strings list pretty.

Open Scope string_scope.
Open Scope Z_scope.

(** ** Machine numbers *)

(** Go [int] on a 64-bit platform: results of [+] and [-] wrap around. *)
Definition wrap64 (z : Z) : Z := (z + 2 ^ 63) mod 2 ^ 64 - 2 ^ 63.

Definition in_int64 (z : Z) : Prop := - 2 ^ 63 <= z < 2 ^ 63.

(** The conversion [float64(n)] of a Go [int]. *)
Definition float64_of_int (z : Z) : float :=
  if z <? 0 then
    if z =? - 2 ^ 63 then (- 9223372036854775808)%float
    else (- PrimFloat.of_uint63 (Uint63.of_Z (- z)))%float
  else PrimFloat.of_uint63 (Uint63.of_Z z).

(** ** Errors *)

(** Go errors.  [ErrNew] is [errors.New] (and [fmt.Errorf] without [%w]),
    [ErrWrap] is [fmt.Errorf("...%w", err)] with everything before the
    [%w] as prefix.  The other constructors are the errors that come from
    outside the service: gorm's record-not-found, gorm's error for a
    preloaded name that is no relation of the schema, an error of the
    database driver (with its text), a statement the database rejects
    because it names a column the table does not have or because a row
    would violate a unique constraint, and an error of the payment
    gateway. *)
Inductive error : Type :=
  | ErrRecordNotFound
  | ErrUnsupportedRelation (relation schema : string)
  | ErrDriver (msg : string)
  | ErrUndefinedColumn (column : string)
  | ErrDuplicateKey (constraint : string)
  | ErrGateway (msg : string)
  | ErrNew (msg : string)
  | ErrWrap (prefix : string) (inner : error).

(** The double quote. *)
Definition quote : string := String (Ascii.ascii_of_nat 34) "".

(** The method [Error()]. *)
Fixpoint Error (e : error) : string :=
  match e with
  | ErrRecordNotFound => "record not found"
  | ErrUnsupportedRelation relation schema =>
      relation +:+ ": unsupported relations for schema " +:+ schema
  | ErrDriver msg => msg
  | ErrUndefinedColumn c => "column " +:+ c +:+ " does not exist"
  | ErrDuplicateKey c =>
      "ERROR: duplicate key value violates unique constraint "
      +:+ quote +:+ c +:+ quote +:+ " (SQLSTATE 23505)"
  | ErrGateway msg => msg
  | ErrNew msg => msg
  | ErrWrap prefix inner => prefix +:+ Error inner
  end.

(** A Go result pair [(value, error)]. *)
Inductive result (A : Type) : Type :=
  | Ok (a : A)
  | Err (e : error).
Arguments Ok {A} a.
Arguments Err {A} e.

(** What a call of a service method ends in: it returns, or the
    goroutine panics on a nil pointer dereference. *)
Inductive outcome (A : Type) : Type :=
  | Return (r : result A)
  | Panic.
Arguments Return {A} r.
Arguments Panic {A}.

(** ** Models (internal/models) *)

Definition OrderStatus := string.
Definition OrderStatusPending : OrderStatus := "pending".
Definition OrderStatusConfirmed : OrderStatus := "confirmed".
Definition OrderStatusProcessing : OrderStatus := "processing".
Definition OrderStatusShipped : OrderStatus := "shipped".
Definition OrderStatusDelivered : OrderStatus := "delivered".
Definition OrderStatusCancelled : OrderStatus := "cancelled".
Definition OrderStatusRefunded : OrderStatus := "refunded".

Definition UserRole := string.
Definition RoleCustomer : UserRole := "customer".
Definition RoleSeller : UserRole := "seller".
Definition RoleAdmin : UserRole := "admin".

Definition PaymentMethod := string.

(** The fields of [models.Product] that the order workflow reads or
    writes.  The primary key is the key of the table. *)
Record Product : Type := {
  Name : string;
  Description : string;
  SKU : string;
  Price : float;
  Stock : Z;
  IsActive : bool;
  SellerID : N
}.

Definition set_Stock (stock : Z) (p : Product) : Product :=
  {| Name := Name p; Description := Description p; SKU := SKU p;
     Price := Price p; Stock := stock; IsActive := IsActive p;
     SellerID := SellerID p |}.

Record OrderItem : Type := {
  ProductID : N;
  Quantity : Z;
  UnitPrice : float;
  TotalPrice : float;
  ProductName : string;
  ProductSKU : string;
  ProductDescription : option string;
  ProductImage : option string
}.

Record Order : Type := {
  ID : N;
  CreatedAt : Z;
  OrderNumber : string;
  CustomerID : N;
  Status : OrderStatus;
  TotalAmount : float;
  SubtotalAmount : float;
  TaxAmount : float;
  ShippingAmount : float;
  DiscountAmount : float;
  OrderPaymentMethod : PaymentMethod;
  ShippingFirstName : string;
  ShippingLastName : string;
  ShippingEmail : string;
  ShippingStreet : string;
  ShippingCity : string;
  ShippingState : string;
  ShippingCountry : string;
  ShippingPostalCode : string;
  OrderItems : list OrderItem
}.

Definition set_Status (status : OrderStatus) (o : Order) : Order :=
  {| ID := ID o; CreatedAt := CreatedAt o;
     OrderNumber := OrderNumber o; CustomerID := CustomerID o;
     Status := status;
     TotalAmount := TotalAmount o; SubtotalAmount := SubtotalAmount o;
     TaxAmount := TaxAmount o; ShippingAmount := ShippingAmount o;
     DiscountAmount := DiscountAmount o;
     OrderPaymentMethod := OrderPaymentMethod o;
     ShippingFirstName := ShippingFirstName o;
     ShippingLastName := ShippingLastName o;
     ShippingEmail := ShippingEmail o;
     ShippingStreet := ShippingStreet o;
     ShippingCity := ShippingCity o;
     ShippingState := ShippingState o;
     ShippingCountry := ShippingCountry o;
     ShippingPostalCode := ShippingPostalCode o;
     OrderItems := OrderItems o |}.

(** What the database fills in on insert: the primary key and
    [created_at]. *)
Definition set_ID_CreatedAt (id : N) (t : Z) (o : Order) : Order :=
  {| ID := id; CreatedAt := t;
     OrderNumber := OrderNumber o; CustomerID := CustomerID o;
     Status := Status o;
     TotalAmount := TotalAmount o; SubtotalAmount := SubtotalAmount o;
     TaxAmount := TaxAmount o; ShippingAmount := ShippingAmount o;
     DiscountAmount := DiscountAmount o;
     OrderPaymentMethod := OrderPaymentMethod o;
     ShippingFirstName := ShippingFirstName o;
     ShippingLastName := ShippingLastName o;
     ShippingEmail := ShippingEmail o;
     ShippingStreet := ShippingStreet o;
     ShippingCity := ShippingCity o;
     ShippingState := ShippingState o;
     ShippingCountry := ShippingCountry o;
     ShippingPostalCode := ShippingPostalCode o;
     OrderItems := OrderItems o |}.

(** The methods [CanCancel], [CanShip], [IsCompleted] and [IsCancelled] of
    [models.Order]. *)
Definition CanCancel (o : Order) : bool :=
  bool_decide (Status o = OrderStatusPending)
  || bool_decide (Status o = OrderStatusConfirmed).

Definition CanShip (o : Order) : bool :=
  bool_decide (Status o = OrderStatusConfirmed)
  || bool_decide (Status o = OrderStatusProcessing).

Definition IsCompleted (o : Order) : bool :=
  bool_decide (Status o = OrderStatusDelivered).

Definition IsCancelled (o : Order) : bool :=
  bool_decide (Status o = OrderStatusCancelled).

(** The loop of [Order.CalculateTotals] over the items, with the fields
    [SubtotalAmount] and [ItemCount] it updates. *)
Fixpoint sumOrderItems (items : list OrderItem) (subtotalAmount : float)
    (itemCount : Z) : float * Z :=
  match items with
  | [] => (subtotalAmount, itemCount)
  | item :: rest =>
      sumOrderItems rest (subtotalAmount + TotalPrice item)%float
        (wrap64 (itemCount + Quantity item))
  end.

(** [Order.CalculateTotals]: the order with subtotal and total recomputed,
    and the computed field [ItemCount], which is not stored and which the
    record [Order] here does not carry. *)
Definition CalculateTotals (o : Order) : Order * Z :=
  let '(subtotalAmount, itemCount) := sumOrderItems (OrderItems o) 0%float 0 in
  ({| ID := ID o; CreatedAt := CreatedAt o;
      OrderNumber := OrderNumber o; CustomerID := CustomerID o;
      Status := Status o;
      TotalAmount :=
        (subtotalAmount + TaxAmount o + ShippingAmount o
         - DiscountAmount o)%float;
      SubtotalAmount := subtotalAmount;
      TaxAmount := TaxAmount o; ShippingAmount := ShippingAmount o;
      DiscountAmount := DiscountAmount o;
      OrderPaymentMethod := OrderPaymentMethod o;
      ShippingFirstName := ShippingFirstName o;
      ShippingLastName := ShippingLastName o;
      ShippingEmail := ShippingEmail o;
      ShippingStreet := ShippingStreet o;
      ShippingCity := ShippingCity o;
      ShippingState := ShippingState o;
      ShippingCountry := ShippingCountry o;
      ShippingPostalCode := ShippingPostalCode o;
      OrderItems := OrderItems o |}, itemCount).

Record OrderItemRequest : Type := {
  ReqProductID : N;
  ReqQuantity : Z
}.

Record CreateOrderRequest : Type := {
  Items : list OrderItemRequest;
  ShippingAddress : string;
  ReqPaymentMethod : PaymentMethod
}.

Record PaymentRequest : Type := {
  PayOrderID : N;
  PayMethod : PaymentMethod;
  Amount : float;
  Currency : string;
  PaymentMethodID : option string
}.

Record PaymentResponse : Type := {
  TransactionID : string;
  PaymentState : string;
  PaidAmount : float
}.

Record OrderAnalytics : Type := {
  TotalRevenue : float;
  TotalOrders : Z;
  PendingOrders : Z;
  ConfirmedOrders : Z;
  ShippedOrders : Z;
  DeliveredOrders : Z;
  CancelledOrders : Z
}.

(** ** The payment gateway (pkg/payment) *)

(** The interface [payment.Service], as far as the order service calls it:
    the answers of the gateway to the two calls. *)
Record PaymentService : Type := {
  CreatePaymentIntent : PaymentRequest -> result string;
  ConfirmPayment : string -> option error
}.

Inductive GatewayCall : Type :=
  | CallCreatePaymentIntent (req : PaymentRequest)
  | CallConfirmPayment (paymentIntentID : string).

(** ** The world outside the service *)

Record World : Type := {
  products : gmap N Product;
  orders : gmap N Order;
  next_order_id : N;
  now : Z;
  read_faults : list (option error);
  write_faults : list (option error);
  stdout : list string;
  gateway_calls : list GatewayCall
}.

Definition set_products (ps : gmap N Product) (w : World) : World :=
  {| products := ps; orders := orders w; next_order_id := next_order_id w;
     now := now w; read_faults := read_faults w;
     write_faults := write_faults w; stdout := stdout w;
     gateway_calls := gateway_calls w |}.

Definition set_orders (os : gmap N Order) (w : World) : World :=
  {| products := products w; orders := os; next_order_id := next_order_id w;
     now := now w; read_faults := read_faults w;
     write_faults := write_faults w; stdout := stdout w;
     gateway_calls := gateway_calls w |}.

Definition set_next_order_id (n : N) (w : World) : World :=
  {| products := products w; orders := orders w; next_order_id := n;
     now := now w; read_faults := read_faults w;
     write_faults := write_faults w; stdout := stdout w;
     gateway_calls := gateway_calls w |}.

Definition set_read_faults (fs : list (option error)) (w : World) : World :=
  {| products := products w; orders := orders w;
     next_order_id := next_order_id w; now := now w; read_faults := fs;
     write_faults := write_faults w; stdout := stdout w;
     gateway_calls := gateway_calls w |}.

Definition set_write_faults (fs : list (option error)) (w : World) : World :=
  {| products := products w; orders := orders w;
     next_order_id := next_order_id w; now := now w;
     read_faults := read_faults w; write_faults := fs; stdout := stdout w;
     gateway_calls := gateway_calls w |}.

(** [fmt.Printf]: one more line on standard output. *)
Definition Printf (line : string) (w : World) : World :=
  {| products := products w; orders := orders w;
     next_order_id := next_order_id w; now := now w;
     read_faults := read_faults w; write_faults := write_faults w;
     stdout := stdout w ++ [line]; gateway_calls := gateway_calls w |}.

Definition record_gateway_call (c : GatewayCall) (w : World) : World :=
  {| products := products w; orders := orders w;
     next_order_id := next_order_id w; now := now w;
     read_faults := read_faults w; write_faults := write_faults w;
     stdout := stdout w; gateway_calls := gateway_calls w ++ [c] |}.

(** One round trip of a query: it fails with the error at the head of the
    read schedule, if there is one; an exhausted schedule means no further
    failure. *)
Definition db_read (w : World) : option error * World :=
  match read_faults w with
  | [] => (None, w)
  | f :: fs => (f, set_read_faults fs w)
  end.

(** One round trip of an INSERT or UPDATE. *)
Definition db_write (w : World) : option error * World :=
  match write_faults w with
  | [] => (None, w)
  | f :: fs => (f, set_write_faults fs w)
  end.

(** ** Repositories (internal/repository/product_repository.go) *)

Module productRepository.

(** [First(&product, id)]: the row with that primary key, or
    record-not-found. *)
Definition GetByID (id : N) (w : World) : result Product * World :=
  let '(fault, w) := db_read w in
  match fault with
  | Some err => (Err err, w)
  | None =>
      match products w !! id with
      | Some product => (Ok product, w)
      | None => (Err ErrRecordNotFound, w)
      end
  end.

(** [UPDATE products SET stock = ? WHERE id = ?]: no row with that key
    is no error. *)
Definition UpdateStock (id : N) (stock : Z) (w : World)
  : option error * World :=
  let '(fault, w) := db_write w in
  match fault with
  | Some err => (Some err, w)
  | None =>
      (None, set_products (alter (set_Stock stock) id (products w)) w)
  end.

(** [SELECT * FROM products WHERE stock <= ?]. *)
Definition GetLowStock (threshold : Z) (w : World)
  : result (list Product) * World :=
  let '(fault, w) := db_read w in
  match fault with
  | Some err => (Err err, w)
  | None =>
      (Ok (filter (fun p => Stock p <= threshold)
             (map_to_list (products w)).*2), w)
  end.

End productRepository.

(** The rows of [order_items JOIN products JOIN orders]: every item of
    every order whose product is still in the products table. *)
Definition joined_rows (w : World) : list (Order * OrderItem * Product) :=
  o ← (map_to_list (orders w)).*2;
  item ← OrderItems o;
  match products w !! ProductID item with
  | Some p => [(o, item, p)]
  | None => []
  end.

(** The numeric columns of the table [order_items]: the fields
    [Quantity], [UnitPrice] and [TotalPrice] of [models.OrderItem] are the
    columns [quantity], [unit_price] and [total_price], as
    migrations/004_create_order_items.sql creates them too.  The other
    columns are [id], [order_id], [product_id], [product_name],
    [product_sku], [product_description], [product_image], [created_at],
    [updated_at] and [deleted_at]; no other name denotes a column. *)
Definition order_items_column (c : string) : option (OrderItem -> float) :=
  if decide (c = "quantity") then Some (fun i => float64_of_int (Quantity i))
  else if decide (c = "unit_price") then Some UnitPrice
  else if decide (c = "total_price") then Some TotalPrice
  else None.

(** [COALESCE(SUM(...), 0)] over the selected rows. *)
Definition sql_sum (xs : list float) : float :=
  foldl (fun acc x => (acc + x)%float) 0%float xs.

(** [created_at BETWEEN ? AND ?], added only when both bounds are given. *)
Definition in_date_range (startDate endDate : option Z) (t : Z) : bool :=
  match startDate, endDate with
  | Some s, Some e => (s <=? t) && (t <=? e)
  | _, _ => true
  end.

(** The statement of [GetRevenueBySellerID], with the two columns of
    [order_items] that its SELECT multiplies left open:
    [SELECT COALESCE(SUM(order_items.c1 * order_items.c2), 0)
     FROM order_items JOIN products ... JOIN orders ...
     WHERE products.seller_id = ? AND orders.status = 'delivered'
     (AND orders.created_at BETWEEN ? AND ?)]. *)
Definition seller_revenue_query (c1 c2 : string) (sellerID : N)
    (startDate endDate : option Z) (w : World) : result float :=
  match order_items_column c1, order_items_column c2 with
  | Some f1, Some f2 =>
      Ok (sql_sum
            (map (fun r : Order * OrderItem * Product =>
                    (f1 r.1.2 * f2 r.1.2)%float)
               (filter (fun r : Order * OrderItem * Product =>
                          SellerID r.2 = sellerID ∧
                          Status r.1.1 = OrderStatusDelivered ∧
                          in_date_range startDate endDate
                            (CreatedAt r.1.1) = true)
                  (joined_rows w))))
  | None, _ => Err (ErrUndefinedColumn ("order_items." +:+ c1))
  | _, None => Err (ErrUndefinedColumn ("order_items." +:+ c2))
  end.

(** *** Preloading *)

(** The relations of the schema [Order]: the fields of [models.Order]
    whose type is a model, [Customer] (a [User]) and [OrderItems] (a slice
    of [OrderItem]). *)
Definition Order_relations : list string := ["Customer"; "OrderItems"].

(** The separator of a preloaded path, the full stop. *)
Definition path_separator : Ascii.ascii := Ascii.ascii_of_nat 46.

(** The relation that a preloaded path starts with: [Items] for
    [Items.Product]. *)
Fixpoint relation_of_path (path : string) : string :=
  match path with
  | EmptyString => EmptyString
  | String c rest =>
      if Ascii.eqb c path_separator then EmptyString
      else String c (relation_of_path rest)
  end.

(** [sort.Strings]. *)
Fixpoint insert_sorted (name : string) (sorted : list string)
  : list string :=
  match sorted with
  | [] => [name]
  | first :: rest =>
      if String.leb name first then name :: sorted
      else first :: insert_sorted name rest
  end.

Definition sort_Strings (names : list string) : list string :=
  foldr insert_sorted [] names.

(** gorm preloads after the query has returned its rows, relation by
    relation in the sorted order of their names, and gives up at the first
    name that is no relation of the schema. *)
Definition unsupported_relation (relations paths : list string)
  : option string :=
  head (filter (fun name => name ∉ relations)
          (sort_Strings (relation_of_path <$> paths))).

(** The column [order_number] of the table [orders]. *)
Definition order_numbers (w : World) : list string :=
  OrderNumber <$> (map_to_list (orders w)).*2.

Module orderRepository.

(** [Create(order)]: the row is inserted with its items under the next
    value of the sequence of the primary key, which the caller's struct
    receives.  A row whose primary key is already in the table is
    rejected, and so is a row whose order number is: the column
    [order_number] is unique (the tag of [Order.OrderNumber], and
    migrations/003_create_orders.sql).  PostgreSQL takes the next value
    of the sequence before it checks the constraints, so that a rejected
    row uses up an id. *)
Definition Create (order : Order) (w : World) : result Order * World :=
  let '(fault, w) := db_write w in
  match fault with
  | Some err => (Err err, w)
  | None =>
      if decide (is_Some (orders w !! next_order_id w)) then
        (Err (ErrDuplicateKey "orders_pkey"),
         set_next_order_id (N.succ (next_order_id w)) w)
      else if decide (OrderNumber order ∈ order_numbers w) then
        (Err (ErrDuplicateKey "orders_order_number_key"),
         set_next_order_id (N.succ (next_order_id w)) w)
      else
        let order := set_ID_CreatedAt (next_order_id w) (now w) order in
        (Ok order,
         set_next_order_id (N.succ (next_order_id w))
           (set_orders (<[next_order_id w := order]> (orders w)) w))
  end.

(** The names that [GetByID] passes to [Preload]. *)
Definition GetByID_preloads : list string :=
  ["User"; "Items"; "Items.Product"].

(** [Preload("User").Preload("Items").Preload("Items.Product")
     .First(&order, id)]: the query for the row with that primary key
    (record-not-found when there is none), and then the preloading of the
    three names for the row found. *)
Definition GetByID (id : N) (w : World) : result Order * World :=
  let '(fault, w) := db_read w in
  match fault with
  | Some err => (Err err, w)
  | None =>
      match orders w !! id with
      | Some order =>
          match unsupported_relation Order_relations GetByID_preloads with
          | Some relation =>
              (Err (ErrUnsupportedRelation relation "Order"), w)
          | None => (Ok order, w)
          end
      | None => (Err ErrRecordNotFound, w)
      end
  end.

(** [UPDATE orders SET status = ? WHERE id = ?]. *)
Definition UpdateStatus (id : N) (status : OrderStatus) (w : World)
  : option error * World :=
  let '(fault, w) := db_write w in
  match fault with
  | Some err => (Some err, w)
  | None =>
      (None, set_orders (alter (set_Status status) id (orders w)) w)
  end.

(** [SELECT count FROM orders] over all rows; on failure [count] stays 0. *)
Definition Count (w : World) : Z * option error * World :=
  let '(fault, w) := db_read w in
  match fault with
  | Some err => (0, Some err, w)
  | None => (Z.of_nat (size (orders w)), None, w)
  end.

(** [SELECT count FROM orders WHERE status = ?]. *)
Definition CountByStatus (status : OrderStatus) (w : World)
  : Z * option error * World :=
  let '(fault, w) := db_read w in
  match fault with
  | Some err => (0, Some err, w)
  | None =>
      (Z.of_nat (length (filter (fun o => Status o = status)
                           (map_to_list (orders w)).*2)), None, w)
  end.

(** [SELECT COALESCE(SUM(total_amount), 0) FROM orders
     WHERE status = 'delivered' (AND created_at BETWEEN ? AND ?)]. *)
Definition GetTotalRevenue (startDate endDate : option Z) (w : World)
  : result float * World :=
  let '(fault, w) := db_read w in
  match fault with
  | Some err => (Err err, w)
  | None =>
      (Ok (sql_sum
             (map TotalAmount
                (filter (fun o => Status o = OrderStatusDelivered ∧
                                  in_date_range startDate endDate
                                    (CreatedAt o) = true)
                   (map_to_list (orders w)).*2))), w)
  end.

(** The SELECT of [GetRevenueBySellerID] is
    [COALESCE(SUM(order_items.price * order_items.quantity), 0)]. *)
Definition GetRevenueBySellerID (sellerID : N)
    (startDate endDate : option Z) (w : World) : result float * World :=
  let '(fault, w) := db_read w in
  match fault with
  | Some err => (Err err, w)
  | None =>
      (seller_revenue_query "price" "quantity" sellerID startDate endDate w,
       w)
  end.

End orderRepository.

(** ** The order service (internal/service/interfaces.go) *)

Module orderService.

(** The map literal [validTransitions]. *)
Definition validTransitions : gmap OrderStatus (list OrderStatus) :=
  <[OrderStatusPending := [OrderStatusConfirmed; OrderStatusCancelled]]>
  (<[OrderStatusConfirmed := [OrderStatusProcessing; OrderStatusCancelled]]>
  (<[OrderStatusProcessing := [OrderStatusShipped; OrderStatusCancelled]]>
  (<[OrderStatusShipped := [OrderStatusDelivered]]>
  (<[OrderStatusDelivered := []]>
  (<[OrderStatusCancelled := []]> ∅))))).

(** [for _, validState := range validStates { if validState == to ... }]. *)
Fixpoint rangeValidStates (validStates : list OrderStatus)
    (to : OrderStatus) : bool :=
  match validStates with
  | [] => false
  | validState :: rest =>
      if decide (validState = to) then true else rangeValidStates rest to
  end.

Definition isValidStatusTransition (from to : OrderStatus) : bool :=
  match validTransitions !! from with
  | None => false
  | Some validStates => rangeValidStates validStates to
  end.

(** *** CreateOrder *)

Definition errFailedToGetProduct (id : N) (err : error) : error :=
  ErrWrap ("failed to get product " +:+ pretty id +:+ ": ") err.

Definition errNotAvailable (name : string) : error :=
  ErrNew ("product " +:+ name +:+ " is not available").

Definition errInsufficientStock (name : string) (available requested : Z)
  : error :=
  ErrNew ("insufficient stock for product " +:+ name +:+ " (available: "
          +:+ pretty available +:+ ", requested: " +:+ pretty requested
          +:+ ")").

(** The loop "Validate and calculate order items", with the variables
    [totalAmount] and [orderItems] it updates. *)
Fixpoint validateItems (items : list OrderItemRequest)
    (totalAmount : float) (orderItems : list OrderItem) (w : World)
  : result (float * list OrderItem) * World :=
  match items with
  | [] => (Ok (totalAmount, orderItems), w)
  | item :: rest =>
      let '(r, w) := productRepository.GetByID (ReqProductID item) w in
      match r with
      | Err err => (Err (errFailedToGetProduct (ReqProductID item) err), w)
      | Ok product =>
          if negb (IsActive product) then
            (Err (errNotAvailable (Name product)), w)
          else if Stock product <? ReqQuantity item then
            (Err (errInsufficientStock (Name product) (Stock product)
                    (ReqQuantity item)), w)
          else
            let itemTotal :=
              (Price product * float64_of_int (ReqQuantity item))%float in
            validateItems rest (totalAmount + itemTotal)%float
              (orderItems ++
               [{| ProductID := ReqProductID item;
                   Quantity := ReqQuantity item;
                   UnitPrice := Price product;
                   TotalPrice := itemTotal;
                   ProductName := Name product;
                   ProductSKU := SKU product;
                   ProductDescription := Some (Description product);
                   ProductImage := None |}]) w
      end
  end.

Definition stockWarning (id : N) (err : error) : string :=
  "Warning: failed to update stock for product " +:+ pretty id +:+ ": "
  +:+ Error err +:+ String (Ascii.ascii_of_nat 10) "".

(** The loop "Update product stock".  The error of the fetch is
    discarded; on a failed fetch [product] is nil and [product.Stock]
    dereferences it. *)
Fixpoint updateProductStock (items : list OrderItemRequest) (w : World)
  : outcome unit * World :=
  match items with
  | [] => (Return (Ok tt), w)
  | item :: rest =>
      let '(r, w) := productRepository.GetByID (ReqProductID item) w in
      match r with
      | Err _ => (Panic, w)
      | Ok product =>
          let newStock := wrap64 (Stock product - ReqQuantity item) in
          let '(e, w) :=
            productRepository.UpdateStock (ReqProductID item) newStock w in
          match e with
          | Some err =>
              updateProductStock rest
                (Printf (stockWarning (ReqProductID item) err) w)
          | None => updateProductStock rest w
          end
      end
  end.

Definition newOrder (req : CreateOrderRequest) (userID : N)
    (totalAmount : float) (orderItems : list OrderItem) : Order :=
  {| ID := 0%N; CreatedAt := 0;
     OrderNumber := "";
     CustomerID := userID;
     Status := OrderStatusPending;
     TotalAmount := totalAmount;
     SubtotalAmount := totalAmount;
     TaxAmount := 0%float; ShippingAmount := 0%float;
     DiscountAmount := 0%float;
     OrderPaymentMethod := ReqPaymentMethod req;
     ShippingFirstName := "Customer";
     ShippingLastName := "User";
     ShippingEmail := "customer@example.com";
     ShippingStreet := ShippingAddress req;
     ShippingCity := "City";
     ShippingState := "State";
     ShippingCountry := "Country";
     ShippingPostalCode := "12345";
     OrderItems := orderItems |}.

Definition CreateOrder (req : CreateOrderRequest) (userID : N) (w : World)
  : outcome Order * World :=
  if decide (length (Items req) = 0%nat) then
    (Return (Err (ErrNew "order must contain at least one item")), w)
  else
    let '(r, w) := validateItems (Items req) 0%float [] w in
    match r with
    | Err err => (Return (Err err), w)
    | Ok (totalAmount, orderItems) =>
        let order := newOrder req userID totalAmount orderItems in
        let '(r, w) := orderRepository.Create order w in
        match r with
        | Err err =>
            (Return (Err (ErrWrap "failed to create order: " err)), w)
        | Ok order =>
            let '(r, w) := updateProductStock (Items req) w in
            match r with
            | Panic => (Panic, w)
            | Return _ => (Return (Ok order), w)
            end
        end
    end.

(** *** UpdateOrderStatus *)

(** The loop that looks for an item whose product belongs to the
    seller; a product that cannot be fetched is skipped. *)
Fixpoint hasSellerItem (items : list OrderItem) (userID : N) (w : World)
  : bool * World :=
  match items with
  | [] => (false, w)
  | item :: rest =>
      let '(r, w) := productRepository.GetByID (ProductID item) w in
      match r with
      | Ok product =>
          if decide (SellerID product = userID) then (true, w)
          else hasSellerItem rest userID w
      | Err _ => hasSellerItem rest userID w
      end
  end.

Definition errInvalidTransition (from to : OrderStatus) : error :=
  ErrNew ("invalid status transition from " +:+ from +:+ " to " +:+ to).

(** "Check authorization for status updates". *)
Definition authorizeStatusUpdate (order : Order) (userID : N)
    (userRole : UserRole) (w : World) : option error * World :=
  if decide (userRole ≠ RoleAdmin) then
    if decide (userRole = RoleSeller) then
      let '(found, w) := hasSellerItem (OrderItems order) userID w in
      if negb found then
        (Some (ErrNew "unauthorized to update this order"), w)
      else (None, w)
    else (Some (ErrNew "unauthorized to update order status"), w)
  else (None, w).

Definition UpdateOrderStatus (id : N) (status : OrderStatus) (userID : N)
    (userRole : UserRole) (w : World) : option error * World :=
  let '(r, w) := orderRepository.GetByID id w in
  match r with
  | Err err => (Some (ErrWrap "failed to get order: " err), w)
  | Ok order =>
      let '(denied, w) := authorizeStatusUpdate order userID userRole w in
      match denied with
      | Some err => (Some err, w)
      | None =>
          if negb (isValidStatusTransition (Status order) status) then
            (Some (errInvalidTransition (Status order) status), w)
          else
            let '(e, w) := orderRepository.UpdateStatus id status w in
            match e with
            | Some err =>
                (Some (ErrWrap "failed to update order status: " err), w)
            | None => (None, w)
            end
      end
  end.

(** *** ProcessPayment *)

Definition ProcessPayment (svc : PaymentService) (orderID : N)
    (paymentReq : PaymentRequest) (w : World)
  : result PaymentResponse * World :=
  let '(r, w) := orderRepository.GetByID orderID w in
  match r with
  | Err err => (Err (ErrWrap "failed to get order: " err), w)
  | Ok order =>
      if decide (Status order ≠ OrderStatusPending) then
        (Err (ErrNew "order is not in pending status"), w)
      else
        let w := record_gateway_call (CallCreatePaymentIntent paymentReq) w in
        match CreatePaymentIntent svc paymentReq with
        | Err err => (Err (ErrWrap "payment processing failed: " err), w)
        | Ok paymentIntentID =>
            let w :=
              record_gateway_call (CallConfirmPayment paymentIntentID) w in
            match ConfirmPayment svc paymentIntentID with
            | Some err =>
                (Err (ErrWrap "payment confirmation failed: " err), w)
            | None =>
                let '(e, w) :=
                  orderRepository.UpdateStatus orderID
                    OrderStatusConfirmed w in
                match e with
                | Some err =>
                    (Err (ErrWrap
                            "failed to update order status after payment: "
                            err), w)
                | None =>
                    (Ok {| TransactionID := paymentIntentID;
                           PaymentState := "confirmed";
                           PaidAmount := TotalAmount order |}, w)
                end
            end
        end
  end.

(** *** CancelOrder *)

(** The loop "Restore product stock": an item whose product cannot be
    fetched is skipped, the result of [UpdateStock] is dropped. *)
Fixpoint restoreProductStock (items : list OrderItem) (w : World) : World :=
  match items with
  | [] => w
  | item :: rest =>
      let '(r, w) := productRepository.GetByID (ProductID item) w in
      match r with
      | Ok product =>
          let newStock := wrap64 (Stock product + Quantity item) in
          let '(_, w) :=
            productRepository.UpdateStock (ProductID item) newStock w in
          restoreProductStock rest w
      | Err _ => restoreProductStock rest w
      end
  end.

Definition CancelOrder (id : N) (userID : N) (userRole : UserRole)
    (w : World) : option error * World :=
  let '(r, w) := orderRepository.GetByID id w in
  match r with
  | Err err => (Some (ErrWrap "failed to get order: " err), w)
  | Ok order =>
      if decide (userRole ≠ RoleAdmin ∧ CustomerID order ≠ userID) then
        (Some (ErrNew "unauthorized to cancel this order"), w)
      else if decide (Status order ≠ OrderStatusPending ∧
                      Status order ≠ OrderStatusConfirmed) then
        (Some (ErrNew "order cannot be cancelled in its current status"), w)
      else
        let w := restoreProductStock (OrderItems order) w in
        let '(e, w) :=
          orderRepository.UpdateStatus id OrderStatusCancelled w in
        match e with
        | Some err => (Some (ErrWrap "failed to cancel order: " err), w)
        | None => (None, w)
        end
  end.

(** *** GetOrderAnalytics *)

Definition GetOrderAnalytics (sellerID : option N)
    (startDate endDate : option Z) (w : World)
  : result OrderAnalytics * World :=
  let '(r, w) :=
    match sellerID with
    | Some sellerID =>
        orderRepository.GetRevenueBySellerID sellerID startDate endDate w
    | None => orderRepository.GetTotalRevenue startDate endDate w
    end in
  match r with
  | Err err => (Err (ErrWrap "failed to get revenue: " err), w)
  | Ok totalRevenue =>
      let '(totalOrders, e, w) := orderRepository.Count w in
      match e with
      | Some err => (Err (ErrWrap "failed to get order count: " err), w)
      | None =>
          let '(pendingOrders, _, w) :=
            orderRepository.CountByStatus OrderStatusPending w in
          let '(confirmedOrders, _, w) :=
            orderRepository.CountByStatus OrderStatusConfirmed w in
          let '(shippedOrders, _, w) :=
            orderRepository.CountByStatus OrderStatusShipped w in
          let '(deliveredOrders, _, w) :=
            orderRepository.CountByStatus OrderStatusDelivered w in
          let '(cancelledOrders, _, w) :=
            orderRepository.CountByStatus OrderStatusCancelled w in
          (Ok {| TotalRevenue := totalRevenue;
                 TotalOrders := totalOrders;
                 PendingOrders := pendingOrders;
                 ConfirmedOrders := confirmedOrders;
                 ShippedOrders := shippedOrders;
                 DeliveredOrders := deliveredOrders;
                 CancelledOrders := cancelledOrders |}, w)
      end
  end.

(** *** GetOrder *)

(** The seller loop of [GetOrder] is the one of [UpdateOrderStatus]. *)
Definition GetOrder (id : N) (userID : N) (userRole : UserRole) (w : World)
  : result Order * World :=
  let '(r, w) := orderRepository.GetByID id w in
  match r with
  | Err err => (Err (ErrWrap "failed to get order: " err), w)
  | Ok order =>
      if decide (userRole ≠ RoleAdmin ∧ CustomerID order ≠ userID) then
        if decide (userRole = RoleSeller) then
          let '(found, w) := hasSellerItem (OrderItems order) userID w in
          if negb found then
            (Err (ErrNew "unauthorized to view this order"), w)
          else (Ok order, w)
        else (Err (ErrNew "unauthorized to view this order"), w)
      else (Ok order, w)
  end.

End orderService.

(** ** The product service: stock (internal/service/interfaces.go) *)

Module productService.

Definition UpdateStock (id : N) (stock : Z) (sellerID : N) (w : World)
  : option error * World :=
  let '(r, w) := productRepository.GetByID id w in
  match r with
  | Err err => (Some (ErrWrap "failed to get product: " err), w)
  | Ok product =>
      if decide (SellerID product ≠ sellerID) then
        (Some (ErrNew "unauthorized to update this product's stock"), w)
      else if stock <? 0 then
        (Some (ErrNew "stock cannot be negative"), w)
      else
        let '(e, w) := productRepository.UpdateStock id stock w in
        match e with
        | Some err => (Some (ErrWrap "failed to update stock: " err), w)
        | None => (None, w)
        end
  end.

(** "Filter by seller if specified". *)
Fixpoint filterBySeller (products : list Product) (sellerID : N)
    (filteredProducts : list Product) : list Product :=
  match products with
  | [] => filteredProducts
  | product :: rest =>
      if decide (SellerID product = sellerID) then
        filterBySeller rest sellerID (filteredProducts ++ [product])
      else filterBySeller rest sellerID filteredProducts
  end.

Definition GetLowStockProducts (threshold : Z) (sellerID : option N)
    (w : World) : result (list Product) * World :=
  let '(r, w) := productRepository.GetLowStock threshold w in
  match r with
  | Err err => (Err (ErrWrap "failed to get low stock products: " err), w)
  | Ok products =>
      match sellerID with
      | Some sellerID => (Ok (filterBySeller products sellerID []), w)
      | None => (Ok products, w)
      end
  end.

End productService.

Import orderService.

(** ** Specification-level definitions *)

(** The adjacency table as the specification words it: pending to
    confirmed or cancelled, confirmed to processing or cancelled,
    processing to shipped or cancelled, shipped to delivered; delivered
    and cancelled have no outgoing transition. *)
Definition transition_table : list (OrderStatus * OrderStatus) :=
  [("pending", "confirmed"); ("pending", "cancelled");
   ("confirmed", "processing"); ("confirmed", "cancelled");
   ("processing", "shipped"); ("processing", "cancelled");
   ("shipped", "delivered")].



(** The order item that [CreateOrder] builds for a request line: product
    and quantity of the line, the unit price read from the products table
    of [w], and the line total computed from that unit price. *)
Definition created_from (w : World) (line : OrderItemRequest)
    (item : OrderItem) : Prop :=
  ProductID item = ReqProductID line ∧
  Quantity item = ReqQuantity line ∧
  ∃ p, products w !! ReqProductID line = Some p ∧
       UnitPrice item = Price p ∧
       TotalPrice item
       = (UnitPrice item * float64_of_int (Quantity item))%float.

(** The sum of unit price times quantity over the items, added up in the
    order of the items starting from 0, as [float64] additions. *)
Definition sum_of_lines (items : list OrderItem) : float :=
  foldl (fun acc item =>
           (acc + UnitPrice item * float64_of_int (Quantity item))%float)
    0%float items.

(** The worlds [w'] that differ from [w] at most in the schedule of read
    failures: what a sequence of queries leaves behind. *)
Definition reads_only (w w' : World) : Prop :=
  products w' = products w ∧ orders w' = orders w ∧
  next_order_id w' = next_order_id w ∧ now w' = now w ∧
  write_faults w' = write_faults w ∧ stdout w' = stdout w ∧
  gateway_calls w' = gateway_calls w.




(** A sequence of statuses in which each step is a permitted
    transition. *)
Fixpoint is_chain (path : list OrderStatus) : bool :=
  match path with
  | from :: rest =>
      match rest with
      | to :: _ => isValidStatusTransition from to && is_chain rest
      | [] => true
      end
  | [] => true
  end.

(** How far a status is along the life of an order. *)
Definition progress (s : OrderStatus) : nat :=
  if decide (s = OrderStatusPending) then 0
  else if decide (s = OrderStatusConfirmed) then 1
  else if decide (s = OrderStatusProcessing) then 2
  else if decide (s = OrderStatusShipped) then 3
  else 4.

(** Request lines and order items as (product, quantity) pairs. *)
Definition request_lines (items : list OrderItemRequest) : list (N * Z) :=
  map (fun l => (ReqProductID l, ReqQuantity l)) items.

Definition order_lines (items : list OrderItem) : list (N * Z) :=
  map (fun item => (ProductID item, Quantity item)) items.

(** The total quantity that the lines ask of product [k]. *)
Fixpoint demand (lines : list (N * Z)) (k : N) : Z :=
  match lines with
  | [] => 0
  | l :: rest => if decide (l.1 = k) then l.2 + demand rest k
                 else demand rest k
  end.

(** The products table [m'] is [m] with the stock of every product [k]
    moved by [d k], in 64-bit arithmetic, and nothing else changed. *)
Definition shifted (d : N -> Z) (m m' : gmap N Product) : Prop :=
  ∀ k, m' !! k = (fun p => set_Stock (wrap64 (Stock p + d k)) p) <$> m !! k.

(** Every stock of the table is a Go [int]. *)
Definition stocks_in_range (w : World) : Prop :=
  ∀ k p, products w !! k = Some p → in_int64 (Stock p).

(** The statuses that [GetOrderAnalytics] counts. *)
Definition counted_statuses : list OrderStatus :=
  [OrderStatusPending; OrderStatusConfirmed; OrderStatusShipped;
   OrderStatusDelivered; OrderStatusCancelled].

(** The orders of the table, and how many of them have a given status or
    a status that is not counted. *)
Definition all_orders (w : World) : list Order :=
  (map_to_list (orders w)).*2.

Definition orders_in (status : OrderStatus) (w : World) : Z :=
  Z.of_nat (length (filter (fun o => Status o = status) (all_orders w))).

Definition orders_not_counted (w : World) : Z :=
  Z.of_nat (length (filter (fun o => Status o ∉ counted_statuses)
                      (all_orders w))).

(** The count that a per-status query contributes: 0 when it failed. *)
Definition count_or_zero (fault : option error) (count : Z) : Z :=
  match fault with
  | Some _ => 0
  | None => count
  end.

(** The number of units that a request asks for, as a Go [int]. *)
Definition requested_units (lines : list OrderItemRequest) : Z :=
  foldl (fun n l => wrap64 (n + ReqQuantity l)) 0 lines.

(** The failed stock updates among the first [n] scheduled writes. *)
Definition failed_writes (n : nat) (w : World) : nat :=
  length (filter (fun f : option error => is_Some f)
            (take n (write_faults w))).

(** ** Example worlds *)

Definition widget : Product :=
  {| Name := "Widget"; Description := "A widget"; SKU := "W-1";
     Price := 10%float; Stock := 5; IsActive := true; SellerID := 7%N |}.

Definition gadget : Product :=
  {| Name := "Gadget"; Description := "A gadget"; SKU := "G-1";
     Price := 20%float; Stock := 3; IsActive := true; SellerID := 8%N |}.

(** A shop with two products of two sellers, no order yet, and a database
    that answers every round trip. *)
Definition shop : World :=
  {| products := {[ 1%N := widget; 2%N := gadget ]};
     orders := ∅; next_order_id := 1%N; now := 1700000000;
     read_faults := []; write_faults := [];
     stdout := []; gateway_calls := [] |}.

Definition line (productID : N) (quantity : Z) : OrderItemRequest :=
  {| ReqProductID := productID; ReqQuantity := quantity |}.

Definition cart (lines : list OrderItemRequest) : CreateOrderRequest :=
  {| Items := lines; ShippingAddress := "1 Main Street";
     ReqPaymentMethod := "card" |}.

(** Order 1 of customer 3: two widgets and one gadget, in a given status. *)
Definition order_of_both_sellers (status : OrderStatus) : Order :=
  {| ID := 1%N; CreatedAt := 1700000000;
     OrderNumber := "ORD-20231114-221320-001"; CustomerID := 3%N;
     Status := status;
     TotalAmount := 40%float; SubtotalAmount := 40%float;
     TaxAmount := 0%float; ShippingAmount := 0%float;
     DiscountAmount := 0%float;
     OrderPaymentMethod := "card";
     ShippingFirstName := "Customer"; ShippingLastName := "User";
     ShippingEmail := "customer@example.com";
     ShippingStreet := "1 Main Street";
     ShippingCity := "City"; ShippingState := "State";
     ShippingCountry := "Country"; ShippingPostalCode := "12345";
     OrderItems :=
       [ {| ProductID := 1%N; Quantity := 2; UnitPrice := 10%float;
            TotalPrice := 20%float; ProductName := "Widget";
            ProductSKU := "W-1"; ProductDescription := Some "A widget";
            ProductImage := None |};
         {| ProductID := 2%N; Quantity := 1; UnitPrice := 20%float;
            TotalPrice := 20%float; ProductName := "Gadget";
            ProductSKU := "G-1"; ProductDescription := Some "A gadget";
            ProductImage := None |} ] |}.

Definition shop_with_order (status : OrderStatus) : World :=
  set_next_order_id 2%N
    (set_orders {[ 1%N := order_of_both_sellers status ]} shop).

(** A gateway that accepts every payment. *)
Definition accepting_gateway : PaymentService :=
  {| CreatePaymentIntent := fun _ => Ok "pi_1";
     ConfirmPayment := fun _ => None |}.

Definition payment_of (orderID : N) (amount : float) : PaymentRequest :=
  {| PayOrderID := orderID; PayMethod := "card"; Amount := amount;
     Currency := "usd"; PaymentMethodID := None |}.

(** ** Round trips that do not fail *)

Lemma db_read_no_fault w : read_faults w = [] → db_read w = (None, w).
Proof. unfold db_read. by intros ->. Qed.

Lemma db_write_no_fault w : write_faults w = [] → db_write w = (None, w).
Proof. unfold db_write. by intros ->. Qed.

Lemma product_GetByID_found w id p :
  read_faults w = [] → products w !! id = Some p →
  productRepository.GetByID id w = (Ok p, w).
Proof.
  intros Hr Hp. unfold productRepository.GetByID.
  by rewrite (db_read_no_fault w Hr), Hp.
Qed.

Lemma product_GetByID_missing w id :
  read_faults w = [] → products w !! id = None →
  productRepository.GetByID id w = (Err ErrRecordNotFound, w).
Proof.
  intros Hr Hp. unfold productRepository.GetByID.
  by rewrite (db_read_no_fault w Hr), Hp.
Qed.

(** The names that [GetByID] preloads are no relations of [Order]; the
    first that gorm meets is [Items]. *)
Lemma GetByID_preloads_unsupported :
  unsupported_relation Order_relations orderRepository.GetByID_preloads
  = Some "Items".
Proof. reflexivity. Qed.

(** The preloading fails for every row that the query finds. *)
Lemma order_GetByID_stored w id o :
  read_faults w = [] → orders w !! id = Some o →
  orderRepository.GetByID id w
  = (Err (ErrUnsupportedRelation "Items" "Order"), w).
Proof.
  intros Hr Ho. unfold orderRepository.GetByID.
  by rewrite (db_read_no_fault w Hr), Ho, GetByID_preloads_unsupported.
Qed.

Lemma order_GetByID_missing w id :
  read_faults w = [] → orders w !! id = None →
  orderRepository.GetByID id w = (Err ErrRecordNotFound, w).
Proof.
  intros Hr Ho. unfold orderRepository.GetByID.
  by rewrite (db_read_no_fault w Hr), Ho.
Qed.

(** Whatever the table holds and whatever fails, [GetByID] returns no
    order. *)
Lemma order_GetByID_Err id w :
  ∃ err, (orderRepository.GetByID id w).1 = Err err.
Proof.
  unfold orderRepository.GetByID. destruct (db_read w) as [[err|] w1].
  - by exists err.
  - rewrite GetByID_preloads_unsupported.
    destruct (orders w1 !! id); simpl; eauto.
Qed.

Lemma UpdateStock_no_fault w id stock :
  write_faults w = [] →
  productRepository.UpdateStock id stock w
  = (None, set_products (alter (set_Stock stock) id (products w)) w).
Proof.
  intros Hw. unfold productRepository.UpdateStock.
  by rewrite (db_write_no_fault w Hw).
Qed.

(** A query changes nothing but the schedule of read failures. *)
Lemma db_read_frame w :
  products (db_read w).2 = products w ∧ orders (db_read w).2 = orders w ∧
  next_order_id (db_read w).2 = next_order_id w ∧ now (db_read w).2 = now w ∧
  write_faults (db_read w).2 = write_faults w ∧
  stdout (db_read w).2 = stdout w ∧
  gateway_calls (db_read w).2 = gateway_calls w.
Proof. unfold db_read. by destruct (read_faults w). Qed.

Lemma product_GetByID_frame w id :
  products (productRepository.GetByID id w).2 = products w ∧
  orders (productRepository.GetByID id w).2 = orders w ∧
  stdout (productRepository.GetByID id w).2 = stdout w.
Proof.
  unfold productRepository.GetByID.
  destruct (db_read_frame w) as (Hp & Ho & _ & _ & _ & Hs & _).
  destruct (db_read w) as [fault w1]; simpl in *.
  destruct fault; [done|]. by destruct (products w1 !! id).
Qed.

Lemma product_GetByID_Ok w id p w' :
  productRepository.GetByID id w = (Ok p, w') → products w !! id = Some p.
Proof.
  unfold productRepository.GetByID.
  destruct (db_read_frame w) as (Hp & _).
  destruct (db_read w) as [fault w1]; simpl in *.
  destruct fault; [done|]. rewrite <- Hp.
  destruct (products w1 !! id); naive_solver.
Qed.

(** ** The transition table *)

(** One source state of the table: the membership test against the listed
    targets agrees with the pairs of the table. *)
Ltac table_case :=
  let H := fresh in
  split;
  [ first [discriminate | intros _; subst; auto 10]
  | intros H; first [reflexivity | exfalso; decompose [or] H; congruence] ].

Lemma isValidStatusTransition_table from to :
  isValidStatusTransition from to = true ↔ (from, to) ∈ transition_table.
Proof.
  unfold isValidStatusTransition, validTransitions, transition_table,
    OrderStatusPending, OrderStatusConfirmed, OrderStatusProcessing,
    OrderStatusShipped, OrderStatusDelivered, OrderStatusCancelled.
  rewrite !elem_of_cons, elem_of_nil.
  repeat (rewrite lookup_insert; case_decide;
          [subst from; simpl; repeat case_decide; table_case|]).
  rewrite lookup_empty. table_case.
Qed.

(** ** UpdateOrderStatus *)

(** C1.  The transition check is the adjacency table: for all statuses
    [isValidStatusTransition] holds exactly for the pairs of the table.
    But [UpdateOrderStatus] does not get as far: its lookup preloads
    [User], [Items] and [Items.Product], which are no relations of
    [models.Order].  For every order that exists, every actor and every
    requested status, the pairs of the table included, and with no failing
    round trip to the database, it returns "failed to get order: Items:
    unsupported relations for schema Order" and persists nothing. *)
Theorem UpdateOrderStatus_fails_at_the_lookup
    (w : World) (id : N) (o : Order) (userID : N) (userRole : UserRole)
    (to : OrderStatus) :
  read_faults w = [] → orders w !! id = Some o →
  UpdateOrderStatus id to userID userRole w
  = (Some (ErrWrap "failed to get order: "
             (ErrUnsupportedRelation "Items" "Order")), w)
  ∧ (isValidStatusTransition (Status o) to = true
     ↔ (Status o, to) ∈ transition_table).
Proof.
  intros Hr Ho. split; [|apply isValidStatusTransition_table].
  unfold UpdateOrderStatus. by rewrite (order_GetByID_stored w id o Hr Ho).
Qed.

(** C1, at an instance: an admin asks to confirm the pending order 1. *)
Lemma UpdateOrderStatus_fails_at_the_lookup_witness :
  UpdateOrderStatus 1 "confirmed" 99 RoleAdmin (shop_with_order "pending")
  = (Some (ErrWrap "failed to get order: "
             (ErrUnsupportedRelation "Items" "Order")),
     shop_with_order "pending")
  ∧ Error (ErrWrap "failed to get order: "
             (ErrUnsupportedRelation "Items" "Order"))
    = "failed to get order: Items: unsupported relations for schema Order"
  ∧ ("pending", "confirmed") ∈ transition_table.
Proof.
  destruct (UpdateOrderStatus_fails_at_the_lookup
              (shop_with_order "pending") 1
              (order_of_both_sellers "pending") 99 RoleAdmin "confirmed"
              eq_refl eq_refl) as [Hrun Htable].
  split; [exact Hrun|]. split; [reflexivity|].
  by apply Htable.
Defined.

(** ** CreateOrder: validation *)

(** A request line refused for its quantity: with every product of the
    request present and active and some line asking for more than the
    stock, the validation loop stops at such a line and leaves the world
    as it was. *)
Lemma validateItems_insufficient items w :
  read_faults w = [] →
  (∀ l, l ∈ items →
        ∃ p, products w !! ReqProductID l = Some p ∧ IsActive p = true) →
  (∃ l p, l ∈ items ∧ products w !! ReqProductID l = Some p ∧
          Stock p < ReqQuantity l) →
  ∀ totalAmount orderItems,
    ∃ l p, l ∈ items ∧ products w !! ReqProductID l = Some p ∧
           Stock p < ReqQuantity l ∧
           validateItems items totalAmount orderItems w
           = (Err (errInsufficientStock (Name p) (Stock p) (ReqQuantity l)),
              w).
Proof.
  intros Hr. induction items as [|l0 rest IH]; intros Hall Hsome t acc.
  - destruct Hsome as (l & p & Hin & _). by apply elem_of_nil in Hin.
  - destruct (Hall l0) as (p0 & Hp0 & Hact); [by left|].
    simpl. rewrite (product_GetByID_found w _ p0 Hr Hp0), Hact. simpl.
    destruct (Stock p0 <? ReqQuantity l0) eqn:Hlt.
    + exists l0, p0. apply Z.ltb_lt in Hlt.
      repeat split; [by left|done..].
    + apply Z.ltb_ge in Hlt.
      assert (Hall' : ∀ l, l ∈ rest →
                ∃ p, products w !! ReqProductID l = Some p ∧
                     IsActive p = true).
      { intros l Hin. apply Hall. by right. }
      assert (Hsome' : ∃ l p, l ∈ rest ∧
                products w !! ReqProductID l = Some p ∧
                Stock p < ReqQuantity l).
      { destruct Hsome as (l & p & Hin & Hp & Hless).
        apply elem_of_cons in Hin as [->|Hin]; [|by eauto].
        rewrite Hp0 in Hp. injection Hp as <-. lia. }
      edestruct (IH Hall' Hsome') as (l & p & Hin & Hp & Hless & Heq).
      exists l, p. repeat split; [by right|done..|exact Heq].
Qed.

(** A validation that passes: it only read the products table, appended
    one item per request line, each priced from the table, and added the
    line totals to the running total in order. *)
Lemma validateItems_Ok items :
  ∀ totalAmount orderItems w totalAmount' orderItems' w',
    validateItems items totalAmount orderItems w
    = (Ok (totalAmount', orderItems'), w') →
    products w' = products w ∧ orders w' = orders w ∧
    stdout w' = stdout w ∧
    ∃ new : list OrderItem, orderItems' = (orderItems ++ new)%list ∧
           Forall2 (created_from w) items new ∧
           totalAmount'
           = foldl (fun acc item =>
                      (acc + UnitPrice item
                             * float64_of_int (Quantity item))%float)
               totalAmount new.
Proof.
  induction items as [|l0 rest IH]; intros t acc w t' acc' w' Hrun.
  - simpl in Hrun. injection Hrun as <- <- <-.
    repeat split. exists []. by rewrite app_nil_r.
  - simpl in Hrun.
    destruct (product_GetByID_frame w (ReqProductID l0)) as (Hps & Hos & Hout).
    destruct (productRepository.GetByID (ReqProductID l0) w)
      as [[p0|err] w1] eqn:Hget; [|done].
    apply product_GetByID_Ok in Hget. simpl in Hps, Hos, Hout.
    destruct (IsActive p0); [|done]. simpl in Hrun.
    destruct (Stock p0 <? ReqQuantity l0); [done|].
    apply IH in Hrun as (Hps' & Hos' & Hout' & new & -> & Hnew & ->).
    repeat split; [congruence..|].
    eexists (_ :: new). split; [by rewrite <- app_assoc|]. split; [|done].
    constructor.
    + repeat split. exists p0. by repeat split.
    + eapply Forall2_impl; [exact Hnew|].
      intros l item (? & ? & p & Hp & ?). repeat split; [done..|].
      exists p. by rewrite <- Hps.
Qed.

(** C2.  When every product of the request exists and is active and some
    line asks for more than the product's stock, and the queries to the
    database do not fail, [CreateOrder] returns the error "insufficient
    stock for product ... (available: stock, requested: quantity)" for
    such a line, and the world is exactly as before: no order was
    persisted and no stock was changed. *)
Theorem CreateOrder_insufficient_stock
    (w : World) (req : CreateOrderRequest) (userID : N) :
  read_faults w = [] →
  (∀ l, l ∈ Items req →
        ∃ p, products w !! ReqProductID l = Some p ∧ IsActive p = true) →
  (∃ l p, l ∈ Items req ∧ products w !! ReqProductID l = Some p ∧
          Stock p < ReqQuantity l) →
  ∃ l p, l ∈ Items req ∧ products w !! ReqProductID l = Some p ∧
         Stock p < ReqQuantity l ∧
         CreateOrder req userID w
         = (Return (Err (errInsufficientStock (Name p) (Stock p)
                           (ReqQuantity l))), w) ∧
         Error (errInsufficientStock (Name p) (Stock p) (ReqQuantity l))
         = "insufficient stock for product " +:+ Name p +:+ " (available: "
           +:+ pretty (Stock p) +:+ ", requested: "
           +:+ pretty (ReqQuantity l) +:+ ")".
Proof.
  intros Hr Hall Hsome.
  destruct (validateItems_insufficient (Items req) w Hr Hall Hsome
              0%float []) as (l & p & Hin & Hp & Hless & Hrun).
  exists l, p. repeat split; [done..|].
  unfold CreateOrder. case_decide as Hlen.
  - destruct (Items req); [by apply elem_of_nil in Hin|done].
  - by rewrite Hrun.
Qed.

(** C2, at an instance: nine widgets where five are in stock. *)
Lemma CreateOrder_insufficient_stock_witness :
  ∃ l p, l ∈ Items (cart [line 2 1; line 1 9]) ∧
         products shop !! ReqProductID l = Some p ∧
         Stock p < ReqQuantity l ∧
         CreateOrder (cart [line 2 1; line 1 9]) 3 shop
         = (Return (Err (errInsufficientStock (Name p) (Stock p)
                           (ReqQuantity l))), shop) ∧
         Error (errInsufficientStock (Name p) (Stock p) (ReqQuantity l))
         = "insufficient stock for product " +:+ Name p +:+ " (available: "
           +:+ pretty (Stock p) +:+ ", requested: "
           +:+ pretty (ReqQuantity l) +:+ ")".
Proof.
  apply (CreateOrder_insufficient_stock shop (cart [line 2 1; line 1 9]) 3).
  - reflexivity.
  - intros l Hin. simpl in Hin.
    apply elem_of_cons in Hin as [->|Hin];
      [exists gadget; split; reflexivity|].
    apply elem_of_cons in Hin as [->|Hin];
      [exists widget; split; reflexivity|].
    by apply elem_of_nil in Hin.
  - exists (line 1 9), widget. split; [|split; [reflexivity|reflexivity]].
    simpl. right. left.
Defined.

(** ** CreateOrder: the created order *)

(** C3.  Whenever [CreateOrder] returns an order: the order has one item
    per request line, in order; each item's unit price is the price of
    the product in the products table at the time of the call (the
    request carries no price), its total price is unit price times
    quantity; the order's total is the sum over the items of unit price
    times quantity, the subtotal equals the total, and tax, shipping and
    discount are zero. *)
Theorem CreateOrder_prices_and_total
    (w : World) (req : CreateOrderRequest) (userID : N)
    (o : Order) (w' : World) :
  CreateOrder req userID w = (Return (Ok o), w') →
  Forall2 (created_from w) (Items req) (OrderItems o) ∧
  TotalAmount o = sum_of_lines (OrderItems o) ∧
  SubtotalAmount o = TotalAmount o ∧
  TaxAmount o = 0%float ∧ ShippingAmount o = 0%float ∧
  DiscountAmount o = 0%float.
Proof.
  unfold CreateOrder. case_decide as Hlen; [done|].
  destruct (validateItems (Items req) 0 [] w)
    as [[[totalAmount orderItems]|err] w1] eqn:Hval; [|done].
  apply validateItems_Ok in Hval
    as (_ & _ & _ & new & -> & Hnew & ->).
  unfold orderRepository.Create.
  destruct (db_write w1) as [fault w2]. destruct fault; [done|].
  do 2 (case_decide; [done|]).
  destruct (updateProductStock (Items req) _) as [[r|] w3]; [|done].
  intros [= <- <-]. simpl. by repeat split.
Qed.

(** C3, at an instance: two widgets and one gadget. *)
Lemma CreateOrder_prices_and_total_witness :
  ∃ o w',
    CreateOrder (cart [line 1 2; line 2 1]) 3 shop = (Return (Ok o), w') ∧
    Forall2 (created_from shop) [line 1 2; line 2 1] (OrderItems o) ∧
    TotalAmount o = sum_of_lines (OrderItems o) ∧
    TotalAmount o = 40%float ∧
    SubtotalAmount o = TotalAmount o ∧
    TaxAmount o = 0%float ∧ ShippingAmount o = 0%float ∧
    DiscountAmount o = 0%float.
Proof.
  eexists _, _. split; [reflexivity|].
  pose proof (CreateOrder_prices_and_total shop
                (cart [line 1 2; line 2 1]) 3 _ _ eq_refl)
    as (Hitems & Htotal & Hsub & Htax & Hship & Hdisc).
  split; [exact Hitems|]. split; [exact Htotal|]. split; [reflexivity|].
  split; [exact Hsub|]. split; [exact Htax|]. split; [exact Hship|].
  exact Hdisc.
Defined.

(** ** CancelOrder *)

(** C4.  For an order that exists and whose status is neither pending
    nor confirmed, [CancelOrder] called by its customer or by an admin,
    with queries that do not fail, returns an error and leaves the world
    as it is, so that no stock and no status changes; but the error is
    not "order cannot be cancelled in its current status": the lookup of
    the order preloads names that are no relations of [models.Order], and
    the call returns "failed to get order: Items: unsupported relations
    for schema Order" before it looks at the status. *)
Theorem CancelOrder_not_cancellable_fails_at_the_lookup
    (w : World) (id : N) (o : Order) (userID : N) (userRole : UserRole) :
  read_faults w = [] →
  orders w !! id = Some o →
  userRole = RoleAdmin ∨ CustomerID o = userID →
  Status o ≠ OrderStatusPending →
  Status o ≠ OrderStatusConfirmed →
  CancelOrder id userID userRole w
  = (Some (ErrWrap "failed to get order: "
             (ErrUnsupportedRelation "Items" "Order")), w)
  ∧ (CancelOrder id userID userRole w).1
    ≠ Some (ErrNew "order cannot be cancelled in its current status").
Proof.
  intros Hr Ho _ _ _. unfold CancelOrder.
  by rewrite (order_GetByID_stored w id o Hr Ho).
Qed.

(** C4, at an instance: the customer of the delivered order 1 cancels
    it. *)
Lemma CancelOrder_not_cancellable_fails_at_the_lookup_witness :
  CancelOrder 1 3 RoleCustomer (shop_with_order "delivered")
  = (Some (ErrWrap "failed to get order: "
             (ErrUnsupportedRelation "Items" "Order")),
     shop_with_order "delivered").
Proof.
  apply (CancelOrder_not_cancellable_fails_at_the_lookup
           (shop_with_order "delivered") 1
           (order_of_both_sellers "delivered") 3 RoleCustomer);
    [reflexivity | reflexivity | right; reflexivity
    | discriminate | discriminate].
Defined.

Lemma wrap64_in_range z : in_int64 z → wrap64 z = z.
Proof.
  unfold in_int64, wrap64. intros Hz.
  rewrite Z.mod_small by lia. lia.
Qed.

(** C5.  For a product [A] that is active with stock [s] and a quantity
    [q ≤ s] (machine integers whose difference is one too, as it is for
    every [q ≥ 0]), with a database that answers every round trip, whose
    sequence of order ids is ahead of the table and which holds no order
    without an order number: creating an order with the
    single line [(A, q)] returns a pending order and leaves [A] with stock
    [s - q]; cancelling that order, by its customer or by an admin, then
    fails at the lookup of the order with "failed to get order: Items:
    unsupported relations for schema Order" and changes nothing: the
    stock of [A] stays [s - q] and the order stays pending.  The loop of
    [CancelOrder] that adds the quantities back is not reached. *)
Theorem CancelOrder_after_CreateOrder_restores_nothing
    (w : World) (A : N) (p : Product) (q : Z) (req : CreateOrderRequest)
    (userID cancellerID : N) (cancellerRole : UserRole) :
  read_faults w = [] → write_faults w = [] →
  orders w !! next_order_id w = None → "" ∉ order_numbers w →
  products w !! A = Some p → IsActive p = true →
  in_int64 (Stock p - q) →
  q <= Stock p →
  Items req = [line A q] →
  cancellerRole = RoleAdmin ∨ cancellerID = userID →
  ∃ o w1,
    CreateOrder req userID w = (Return (Ok o), w1) ∧
    Status o = OrderStatusPending ∧
    Stock <$> products w1 !! A = Some (Stock p - q) ∧
    CancelOrder (ID o) cancellerID cancellerRole w1
    = (Some (ErrWrap "failed to get order: "
               (ErrUnsupportedRelation "Items" "Order")), w1) ∧
    Status <$> orders w1 !! ID o = Some OrderStatusPending.
Proof.
  intros Hr Hw Hfresh Hnum Hp Hact Hdiff Hle Hitems _.
  unfold CreateOrder. rewrite Hitems. simpl.
  rewrite (product_GetByID_found w A p Hr Hp), Hact. simpl.
  replace (Stock p <? q) with false by (symmetry; apply Z.ltb_ge; lia).
  unfold orderRepository.Create. rewrite (db_write_no_fault w Hw).
  rewrite decide_False by (rewrite Hfresh; by intros [? ?]).
  rewrite decide_False by exact Hnum.
  cbn -[wrap64].
  rewrite product_GetByID_found with (p := p) by done.
  rewrite UpdateStock_no_fault by done.
  rewrite (wrap64_in_range _ Hdiff).
  eexists _, _. split; [reflexivity|]. split; [reflexivity|].
  cbn -[wrap64]. rewrite lookup_alter_eq, Hp.
  split; [reflexivity|].
  split; [|by rewrite lookup_insert_eq].
  unfold CancelOrder.
  erewrite order_GetByID_stored; [reflexivity|done|].
  cbn. apply lookup_insert_eq.
Qed.

(** C5, at an instance: customer 3 orders two of the five widgets and
    cancels; the stock stays at 3. *)
Lemma CancelOrder_after_CreateOrder_restores_nothing_witness :
  ∃ o w1,
    CreateOrder (cart [line 1 2]) 3 shop = (Return (Ok o), w1) ∧
    Status o = OrderStatusPending ∧
    Stock <$> products w1 !! 1%N = Some 3 ∧
    CancelOrder (ID o) 3 RoleCustomer w1
    = (Some (ErrWrap "failed to get order: "
               (ErrUnsupportedRelation "Items" "Order")), w1) ∧
    Status <$> orders w1 !! ID o = Some OrderStatusPending.
Proof.
  apply (CancelOrder_after_CreateOrder_restores_nothing shop 1 widget 2
           (cart [line 1 2]) 3 3 RoleCustomer);
    [reflexivity | reflexivity | reflexivity
    | vm_compute; by intros ?%elem_of_nil
    | reflexivity | reflexivity
    | split; [discriminate | reflexivity]
    | discriminate | reflexivity | right; reflexivity].
Defined.

(** ** ProcessPayment *)

(** C6.  For an order that exists, whatever its status and whatever the
    gateway answers, with queries that do not fail: [ProcessPayment]
    returns "failed to get order: Items: unsupported relations for schema
    Order" and leaves the world as it is.  The lookup preloads names that
    are no relations of [models.Order], so that neither the status check
    nor the gateway nor the write of the status confirmed is reached: an
    order that is not pending does not get "order is not in pending
    status", and a pending order whose payment the gateway would accept
    stays pending. *)
Theorem ProcessPayment_fails_at_the_lookup
    (svc : PaymentService) (w : World) (orderID : N) (o : Order)
    (paymentReq : PaymentRequest) :
  read_faults w = [] →
  orders w !! orderID = Some o →
  ProcessPayment svc orderID paymentReq w
  = (Err (ErrWrap "failed to get order: "
            (ErrUnsupportedRelation "Items" "Order")), w).
Proof.
  intros Hr Ho. unfold ProcessPayment.
  by rewrite (order_GetByID_stored w orderID o Hr Ho).
Qed.

(** C6, at instances: the gateway would accept the payment of the pending
    order 1, and the order stays pending with no call to the gateway; the
    shipped order 1 is not refused for its status. *)
Lemma ProcessPayment_fails_at_the_lookup_witness :
  ProcessPayment accepting_gateway 1 (payment_of 1 40)
    (shop_with_order "pending")
  = (Err (ErrWrap "failed to get order: "
            (ErrUnsupportedRelation "Items" "Order")),
     shop_with_order "pending")
  ∧ Status <$> orders (shop_with_order "pending") !! 1%N
    = Some OrderStatusPending
  ∧ gateway_calls (shop_with_order "pending") = []
  ∧ ProcessPayment accepting_gateway 1 (payment_of 1 40)
      (shop_with_order "shipped")
    = (Err (ErrWrap "failed to get order: "
              (ErrUnsupportedRelation "Items" "Order")),
       shop_with_order "shipped").
Proof.
  split; [|split; [reflexivity|split; [reflexivity|]]].
  - apply (ProcessPayment_fails_at_the_lookup accepting_gateway
             (shop_with_order "pending") 1
             (order_of_both_sellers "pending") (payment_of 1 40));
      reflexivity.
  - apply (ProcessPayment_fails_at_the_lookup accepting_gateway
             (shop_with_order "shipped") 1
             (order_of_both_sellers "shipped") (payment_of 1 40));
      reflexivity.
Defined.

(** ** The end-to-end scenario *)

(** [UpdateOrderStatus] writes at most the status of an order: whatever
    the order, the actor, the requested status and the failures of the
    database, the products table is the same afterwards. *)
Lemma hasSellerItem_keeps_products items userID :
  ∀ w, products (hasSellerItem items userID w).2 = products w.
Proof.
  induction items as [|item rest IH]; intros w; [done|]. simpl.
  destruct (product_GetByID_frame w (ProductID item)) as (Hps & _).
  destruct (productRepository.GetByID (ProductID item) w) as [[p|err] w1].
  - case_decide; [done|]. simpl in Hps. by rewrite IH.
  - simpl in Hps. by rewrite IH.
Qed.

Lemma UpdateOrderStatus_keeps_products id status userID userRole w :
  products (UpdateOrderStatus id status userID userRole w).2 = products w.
Proof.
  unfold UpdateOrderStatus, orderRepository.GetByID.
  destruct (db_read_frame w) as (Hps & _).
  destruct (db_read w) as [fault w1]. simpl in Hps.
  destruct fault; [done|].
  destruct (orders w1 !! id) as [o|]; [|done].
  assert (Hauth : products (authorizeStatusUpdate o userID userRole w1).2
                  = products w1).
  { unfold authorizeStatusUpdate. case_decide; [|done].
    case_decide; [|done].
    pose proof (hasSellerItem_keeps_products (OrderItems o) userID w1).
    destruct (hasSellerItem (OrderItems o) userID w1) as [found w2].
    by destruct found. }
  destruct (authorizeStatusUpdate o userID userRole w1) as [denied w2].
  simpl in Hauth. destruct denied; simpl; [congruence|].
  destruct (isValidStatusTransition (Status o) status); simpl; [|congruence].
  unfold orderRepository.UpdateStatus, db_write.
  destruct (write_faults w2) as [|f fs]; simpl; [congruence|].
  destruct f; simpl; congruence.
Qed.

(** C7.  The scenario on the code.  Customer 3 orders one of the five
    widgets at 10: the total is 10, the stock 4, the status pending.
    [ProcessPayment], with a gateway that accepts every payment, then
    fails at the lookup of the order ("failed to get order: Items:
    unsupported relations for schema Order"): the order is not confirmed
    and the gateway is not called.  An admin's [UpdateOrderStatus] to
    cancelled fails in the same way, and the stock stays at 4 with the
    order pending.  Apart from the lookup, [UpdateOrderStatus] never
    writes the products table, whatever it is called with, while the loop
    of [CancelOrder] that restores the stock would bring the widget back
    to 5. *)
Theorem scenario_stops_at_the_payment :
  ∃ o w1,
    CreateOrder (cart [line 1 1]) 3 shop = (Return (Ok o), w1) ∧
    TotalAmount o = 10%float ∧ Status o = OrderStatusPending ∧
    Stock <$> products w1 !! 1%N = Some 4 ∧
    ProcessPayment accepting_gateway (ID o) (payment_of (ID o) 10) w1
    = (Err (ErrWrap "failed to get order: "
              (ErrUnsupportedRelation "Items" "Order")), w1) ∧
    UpdateOrderStatus (ID o) OrderStatusCancelled 99 RoleAdmin w1
    = (Some (ErrWrap "failed to get order: "
               (ErrUnsupportedRelation "Items" "Order")), w1) ∧
    Status <$> orders w1 !! ID o = Some OrderStatusPending ∧
    gateway_calls w1 = [] ∧
    Stock <$> products (restoreProductStock (OrderItems o) w1) !! 1%N
    = Some 5 ∧
    ∀ id status userID userRole w,
      products (UpdateOrderStatus id status userID userRole w).2
      = products w.
Proof.
  eexists _, _.
  split; [reflexivity|]. split; [reflexivity|]. split; [reflexivity|].
  split; [reflexivity|]. split; [reflexivity|]. split; [reflexivity|].
  split; [reflexivity|]. split; [reflexivity|]. split; [reflexivity|].
  apply UpdateOrderStatus_keeps_products.
Qed.

(** ** CreateOrder: the stock update after the order is persisted *)

(** With queries that do not fail, validation leaves the world as it
    is. *)
Lemma validateItems_no_fault_world items :
  ∀ totalAmount orderItems w,
    read_faults w = [] →
    (validateItems items totalAmount orderItems w).2 = w.
Proof.
  induction items as [|l0 rest IH]; intros t acc w Hr; [done|]. simpl.
  destruct (products w !! ReqProductID l0) as [p0|] eqn:Hp0.
  - rewrite (product_GetByID_found w _ p0 Hr Hp0).
    destruct (IsActive p0); [|done]. simpl.
    destruct (Stock p0 <? ReqQuantity l0); [done|]. by apply IH.
  - by rewrite (product_GetByID_missing w _ Hr Hp0).
Qed.

(** When every fetch of the loop succeeds, the loop runs to its end
    whatever the stock updates do, and prints one warning per failed
    update. *)
Lemma updateProductStock_total items :
  ∀ w, read_faults w = [] →
       (∀ l, l ∈ items → is_Some (products w !! ReqProductID l)) →
       ∃ w', updateProductStock items w = (Return (Ok tt), w') ∧
             orders w' = orders w ∧
             length (stdout w')
             = (length (stdout w) + failed_writes (length items) w)%nat.
Proof.
  induction items as [|l0 rest IH]; intros w Hr Hall.
  - exists w. unfold failed_writes. simpl. repeat split. lia.
  - destruct (Hall l0) as [p0 Hp0]; [by left|].
    simpl. rewrite (product_GetByID_found w _ p0 Hr Hp0).
    unfold productRepository.UpdateStock, db_write, failed_writes.
    destruct (write_faults w) as [|f fs] eqn:Hfs.
    + edestruct (IH (set_products
                       (alter (set_Stock
                                 (wrap64 (Stock p0 - ReqQuantity l0)))
                          (ReqProductID l0) (products w)) w))
        as (w' & -> & Hos & Hout); [done| |].
      { intros l Hin. cbn. rewrite lookup_alter.
        case_decide; [subst; by rewrite Hp0|]. apply Hall. by right. }
      exists w'. split; [done|]. split; [done|].
      rewrite Hout. unfold failed_writes. cbn. rewrite Hfs.
      by rewrite take_nil.
    + destruct f as [err|].
      * edestruct (IH (Printf (stockWarning (ReqProductID l0) err)
                         (set_write_faults fs w)))
          as (w' & -> & Hos & Hout); [done| |].
        { intros l Hin. cbn. apply Hall. by right. }
        exists w'. split; [done|]. split; [done|].
        rewrite Hout. unfold failed_writes. cbn.
        rewrite length_app, decide_True by done. cbn.
        by rewrite <- Nat.add_assoc.
      * edestruct (IH (set_products
                         (alter (set_Stock
                                   (wrap64 (Stock p0 - ReqQuantity l0)))
                            (ReqProductID l0)
                            (products (set_write_faults fs w)))
                         (set_write_faults fs w)))
          as (w' & -> & Hos & Hout); [done| |].
        { intros l Hin. cbn. rewrite lookup_alter.
          case_decide; [subst; by rewrite Hp0|]. apply Hall. by right. }
        exists w'. split; [done|]. split; [done|].
        rewrite Hout. unfold failed_writes. cbn.
        by rewrite decide_False by done.
Qed.

(** C9.  The stock update of [CreateOrder] fetches each product again and
    drops the error of the fetch.  When no query fails, [CreateOrder]
    never panics, and on products that are present the update loop runs to
    its end whatever the stock updates do, printing one warning per failed
    update.  But a fetch can fail after the order is persisted: there is a
    run in which the validation fetch succeeds, the order is inserted, the
    second fetch fails, and the call panics on the nil product with the
    order persisted, the stock untouched and no warning printed. *)
Theorem CreateOrder_refetch_nil_dereference :
  (∀ req userID w,
     read_faults w = [] → (CreateOrder req userID w).1 ≠ Panic)
  ∧ (∀ items w,
       read_faults w = [] →
       (∀ l, l ∈ items → is_Some (products w !! ReqProductID l)) →
       ∃ w', updateProductStock items w = (Return (Ok tt), w') ∧
             length (stdout w')
             = (length (stdout w) + failed_writes (length items) w)%nat)
  ∧ (∃ w', CreateOrder (cart [line 1 1]) 3
             (set_read_faults [None; Some (ErrDriver "connection reset")] shop) = (Panic, w') ∧
           orders shop = ∅ ∧ is_Some (orders w' !! 1%N) ∧
           products w' = products shop ∧ stdout w' = []).
Proof.
  split; [|split].
  - intros req userID w Hr. unfold CreateOrder.
    case_decide; [done|].
    pose proof (validateItems_no_fault_world (Items req) 0%float [] w Hr)
      as Hsame.
    destruct (validateItems (Items req) 0 [] w)
      as [[[totalAmount orderItems]|err] w1] eqn:Hval; [|done].
    simpl in Hsame. subst w1.
    apply validateItems_Ok in Hval as (_ & _ & _ & new & _ & Hnew & _).
    unfold orderRepository.Create, db_write.
    assert (Hupd : ∀ w2, read_faults w2 = [] → products w2 = products w →
              (updateProductStock (Items req) w2).1 = Return (Ok tt)).
    { intros w2 Hr2 Hps2.
      destruct (updateProductStock_total (Items req) w2 Hr2)
        as (w' & -> & _); [|done].
      intros l Hin. rewrite Hps2.
      apply list_elem_of_lookup in Hin as [i Hi].
      destruct (Forall2_lookup_l _ _ _ _ _ Hnew Hi)
        as (item & _ & _ & _ & p & -> & _). by eexists. }
    destruct (write_faults w) as [|f fs]; simpl.
    + do 2 (case_decide; [done|]).
      match goal with
      | |- context [updateProductStock (Items req) ?w2] =>
          pose proof (Hupd w2 Hr eq_refl) as Hrun;
          destruct (updateProductStock (Items req) w2) as [r w3]
      end.
      simpl in Hrun. by subst r.
    + destruct f; simpl; [done|]. do 2 (case_decide; [done|]).
      match goal with
      | |- context [updateProductStock (Items req) ?w2] =>
          pose proof (Hupd w2 Hr eq_refl) as Hrun;
          destruct (updateProductStock (Items req) w2) as [r w3]
      end.
      simpl in Hrun. by subst r.
  - intros items w Hr Hall.
    destruct (updateProductStock_total items w Hr Hall)
      as (w' & Hrun & _ & Hout). by exists w'.
  - eexists. split; [reflexivity|]. split; [reflexivity|].
    split; [by eexists|]. split; reflexivity.
Qed.

(** Validation passes when every product of the request is present,
    active and sufficiently stocked. *)
Lemma validateItems_succeeds items :
  ∀ totalAmount orderItems w,
    read_faults w = [] →
    (∀ l, l ∈ items →
          ∃ p, products w !! ReqProductID l = Some p ∧ IsActive p = true ∧
               ReqQuantity l <= Stock p) →
    ∃ totalAmount' orderItems',
      validateItems items totalAmount orderItems w
      = (Ok (totalAmount', orderItems'), w).
Proof.
  induction items as [|l0 rest IH]; intros t acc w Hr Hall.
  - by eexists _, _.
  - destruct (Hall l0) as (p0 & Hp0 & Hact & Hle); [by left|].
    simpl. rewrite (product_GetByID_found w _ p0 Hr Hp0), Hact. simpl.
    replace (Stock p0 <? ReqQuantity l0) with false
      by (symmetry; apply Z.ltb_ge; lia).
    apply IH; [done|]. intros l Hin. apply Hall. by right.
Qed.

(** A valid request is accepted: with a database that answers every round
    trip, whose sequence of order ids is ahead of the table and which
    holds no order without an order number, a non-empty request
    whose products are all present, active and sufficiently stocked yields
    a pending order of the caller that is in the orders table
    afterwards. *)
Lemma CreateOrder_succeeds req userID w :
  read_faults w = [] → write_faults w = [] →
  orders w !! next_order_id w = None → "" ∉ order_numbers w →
  Items req ≠ [] →
  (∀ l, l ∈ Items req →
        ∃ p, products w !! ReqProductID l = Some p ∧ IsActive p = true ∧
             ReqQuantity l <= Stock p) →
  ∃ o w', CreateOrder req userID w = (Return (Ok o), w') ∧
          Status o = OrderStatusPending ∧ CustomerID o = userID ∧
          orders w' = <[ID o := o]> (orders w).
Proof.
  intros Hr Hw Hfresh Hnum Hne Hall. unfold CreateOrder.
  case_decide as Hlen; [by destruct (Items req)|].
  destruct (validateItems_succeeds (Items req) 0%float [] w Hr Hall)
    as (totalAmount & orderItems & ->).
  unfold orderRepository.Create. rewrite (db_write_no_fault w Hw).
  rewrite decide_False by (rewrite Hfresh; by intros [? ?]).
  rewrite decide_False by exact Hnum.
  match goal with
  | |- context [updateProductStock (Items req) ?w2] =>
      destruct (updateProductStock_total (Items req) w2 Hr)
        as (w' & -> & Hos & _)
  end.
  { intros l Hin. destruct (Hall l Hin) as (p & Hp & _). by exists p. }
  eexists _, _. split; [reflexivity|]. by rewrite Hos.
Qed.

(** A stock update that fails is printed and does not fail the order: the
    order is returned and persisted, the stock stays as it was. *)
Example CreateOrder_logs_failed_stock_update :
  ∃ o w',
    CreateOrder (cart [line 1 1]) 3
      (set_write_faults [None; Some (ErrDriver "deadlock detected")] shop)
    = (Return (Ok o), w') ∧
    is_Some (orders w' !! ID o) ∧
    Stock <$> products w' !! 1%N = Some 5 ∧
    stdout w'
    = ["Warning: failed to update stock for product 1: deadlock detected"
       +:+ String (Ascii.ascii_of_nat 10) ""].
Proof.
  eexists _, _. split; [reflexivity|]. split; [by eexists|].
  split; reflexivity.
Qed.

(** ** Analytics *)

(** [order_items] has no column [price]: the statement of
    [GetRevenueBySellerID] is rejected whatever the tables hold. *)
Lemma GetRevenueBySellerID_fails sellerID startDate endDate w :
  ∃ err, (orderRepository.GetRevenueBySellerID sellerID startDate endDate
            w).1 = Err err.
Proof.
  unfold orderRepository.GetRevenueBySellerID.
  destruct (db_read w) as [fault w1]. destruct fault; by eexists.
Qed.

(** With queries that do not fail and no seller given, the analytics
    count every order of the table: the total and the per-status counts
    do not depend on the date bounds. *)
Lemma GetOrderAnalytics_counts_all_orders startDate endDate w :
  read_faults w = [] →
  ∃ a, GetOrderAnalytics None startDate endDate w = (Ok a, w) ∧
       TotalOrders a = Z.of_nat (size (orders w)) ∧
       (∀ status count,
          (status, count) ∈ [(OrderStatusPending, PendingOrders a);
                             (OrderStatusConfirmed, ConfirmedOrders a);
                             (OrderStatusShipped, ShippedOrders a);
                             (OrderStatusDelivered, DeliveredOrders a);
                             (OrderStatusCancelled, CancelledOrders a)] →
          count = Z.of_nat (length (filter (fun o => Status o = status)
                                      (map_to_list (orders w)).*2))).
Proof.
  intros Hr.
  unfold GetOrderAnalytics, orderRepository.GetTotalRevenue,
    orderRepository.Count, orderRepository.CountByStatus.
  rewrite !(db_read_no_fault w Hr). eexists. split; [reflexivity|].
  split; [reflexivity|]. intros status count Hin. cbn in Hin.
  repeat (apply elem_of_cons in Hin as [[= -> ->]|Hin]; [reflexivity|]).
  by apply elem_of_nil in Hin.
Qed.

(** C8, at a failing input.  Order 1 is delivered and holds two widgets
    of seller 7 (line total 20) and one gadget of seller 8 (line total
    20, order total 40).  The seller-scoped revenue of seller 7 should be
    20, and the same statement over the column [unit_price] yields 20;
    [GetRevenueBySellerID] selects [order_items.price], which the table
    does not have, so it returns an error and [GetOrderAnalytics] fails
    with "failed to get revenue". *)
Theorem GetRevenueBySellerID_undefined_column :
  orderRepository.GetRevenueBySellerID 7 None None
    (shop_with_order OrderStatusDelivered)
  = (Err (ErrUndefinedColumn "order_items.price"),
     shop_with_order OrderStatusDelivered)
  ∧ GetOrderAnalytics (Some 7%N) None None
      (shop_with_order OrderStatusDelivered)
    = (Err (ErrWrap "failed to get revenue: "
              (ErrUndefinedColumn "order_items.price")),
       shop_with_order OrderStatusDelivered)
  ∧ seller_revenue_query "unit_price" "quantity" 7 None None
      (shop_with_order OrderStatusDelivered) = Ok 20%float
  ∧ TotalAmount (order_of_both_sellers OrderStatusDelivered) = 40%float.
Proof. repeat split; reflexivity. Qed.

(** C10, at its failing inputs.  For every seller, whatever the date
    bounds and the tables, [GetOrderAnalytics] with that seller returns
    the error "failed to get revenue: ..." of the seller revenue query:
    no total and no per-status count is returned. *)
Theorem GetOrderAnalytics_seller_fails
    (sellerID : N) (startDate endDate : option Z) (w : World) :
  ∃ err w',
    GetOrderAnalytics (Some sellerID) startDate endDate w
    = (Err (ErrWrap "failed to get revenue: " err), w').
Proof.
  unfold GetOrderAnalytics.
  destruct (GetRevenueBySellerID_fails sellerID startDate endDate w)
    as [err Herr].
  destruct (orderRepository.GetRevenueBySellerID sellerID startDate endDate w)
    as [r w1]. simpl in Herr. subst r. by eexists _, _.
Qed.


(** * Further properties of the order workflow *)

(** ** Queries leave the tables alone *)

Lemma reads_only_refl w : reads_only w w.
Proof. by repeat split. Qed.

Lemma reads_only_trans w1 w2 w3 :
  reads_only w1 w2 → reads_only w2 w3 → reads_only w1 w3.
Proof.
  unfold reads_only. intros (?&?&?&?&?&?&?) (?&?&?&?&?&?&?).
  repeat split; congruence.
Qed.

Lemma db_read_reads_only w : reads_only w (db_read w).2.
Proof.
  destruct (db_read_frame w) as (?&?&?&?&?&?&?). by repeat split.
Qed.

Lemma product_GetByID_reads_only id w :
  reads_only w (productRepository.GetByID id w).2.
Proof.
  unfold productRepository.GetByID.
  pose proof (db_read_reads_only w) as Hro.
  destruct (db_read w) as [[err|] w1]; [done|].
  by destruct (products w1 !! id).
Qed.

Lemma order_GetByID_reads_only id w :
  reads_only w (orderRepository.GetByID id w).2.
Proof.
  unfold orderRepository.GetByID.
  pose proof (db_read_reads_only w) as Hro.
  destruct (db_read w) as [[err|] w1]; [done|].
  by destruct (orders w1 !! id).
Qed.



Lemma validateItems_reads_only items :
  ∀ totalAmount orderItems w,
    reads_only w (validateItems items totalAmount orderItems w).2.
Proof.
  induction items as [|l0 rest IH]; intros t acc w; [apply reads_only_refl|].
  simpl. pose proof (product_GetByID_reads_only (ReqProductID l0) w) as Hro.
  destruct (productRepository.GetByID (ReqProductID l0) w) as [[p|err] w1];
    [|done].
  destruct (IsActive p); [|done]. simpl.
  destruct (Stock p <? ReqQuantity l0); [done|].
  eapply reads_only_trans; [exact Hro|apply IH].
Qed.




(** ** GetOrder *)

(** The lookup of an order fails, and only reads. *)
Lemma order_GetByID_fails id w :
  ∃ err w', orderRepository.GetByID id w = (Err err, w') ∧ reads_only w w'.
Proof.
  pose proof (order_GetByID_reads_only id w) as Hro.
  destruct (order_GetByID_Err id w) as [err Herr].
  destruct (orderRepository.GetByID id w) as [r w']. simpl in *. subst r.
  by exists err, w'.
Qed.

(** X1.  [GetOrder] returns no order.  Whatever the tables hold and
    whatever fails, it returns an error "failed to get order: ..." and
    writes nothing.  With queries that do not fail, the error for an
    order that exists is "failed to get order: Items: unsupported
    relations for schema Order" for every caller, admins and the customer
    of the order included, and the error for an unknown id is "failed to
    get order: record not found"; the world is unchanged. *)
Theorem GetOrder_returns_no_order
    (w : World) (id userID : N) (userRole : UserRole) :
  (∃ err, (GetOrder id userID userRole w).1
          = Err (ErrWrap "failed to get order: " err)) ∧
  reads_only w (GetOrder id userID userRole w).2 ∧
  (read_faults w = [] →
   GetOrder id userID userRole w
   = (Err (ErrWrap "failed to get order: "
             match orders w !! id with
             | Some _ => ErrUnsupportedRelation "Items" "Order"
             | None => ErrRecordNotFound
             end), w)).
Proof.
  split; [|split].
  - unfold GetOrder.
    destruct (order_GetByID_fails id w) as (err & w' & -> & _).
    by exists err.
  - unfold GetOrder.
    by destruct (order_GetByID_fails id w) as (err & w' & -> & Hro).
  - intros Hr. unfold GetOrder.
    destruct (orders w !! id) as [o|] eqn:Ho.
    + by rewrite (order_GetByID_stored w id o Hr Ho).
    + by rewrite (order_GetByID_missing w id Hr Ho).
Qed.

(** X1, at instances: neither the customer of the pending order 1 nor an
    admin gets to see it. *)
Lemma GetOrder_returns_no_order_witness :
  GetOrder 1 3 RoleCustomer (shop_with_order "pending")
  = (Err (ErrWrap "failed to get order: "
            (ErrUnsupportedRelation "Items" "Order")),
     shop_with_order "pending")
  ∧ GetOrder 1 99 RoleAdmin (shop_with_order "pending")
    = (Err (ErrWrap "failed to get order: "
              (ErrUnsupportedRelation "Items" "Order")),
       shop_with_order "pending")
  ∧ GetOrder 2 3 RoleCustomer (shop_with_order "pending")
    = (Err (ErrWrap "failed to get order: " ErrRecordNotFound),
       shop_with_order "pending").
Proof.
  pose proof (GetOrder_returns_no_order (shop_with_order "pending") 1 3
                RoleCustomer) as (_ & _ & H3).
  pose proof (GetOrder_returns_no_order (shop_with_order "pending") 1 99
                RoleAdmin) as (_ & _ & H99).
  pose proof (GetOrder_returns_no_order (shop_with_order "pending") 2 3
                RoleCustomer) as (_ & _ & H2).
  split; [exact (H3 eq_refl)|]. split; [exact (H99 eq_refl)|].
  exact (H2 eq_refl).
Defined.

(** ** What the operations do to the orders table *)

Lemma order_Create_effect o w :
  match (orderRepository.Create o w).1 with
  | Ok o' =>
      o' = set_ID_CreatedAt (next_order_id w) (now w) o ∧
      orders (orderRepository.Create o w).2 = <[ID o' := o']> (orders w) ∧
      products (orderRepository.Create o w).2 = products w ∧
      read_faults (orderRepository.Create o w).2 = read_faults w
  | Err _ =>
      orders (orderRepository.Create o w).2 = orders w ∧
      products (orderRepository.Create o w).2 = products w ∧
      stdout (orderRepository.Create o w).2 = stdout w
  end.
Proof.
  unfold orderRepository.Create, db_write.
  destruct (write_faults w) as [|[err|] fs]; simpl; [|done|].
  all: by repeat case_decide.
Qed.







(** X3.  Whatever fails, an error returned by [CreateOrder] means that
    nothing was persisted: the orders table, the products table and the
    standard output are as before the call. *)
Theorem CreateOrder_error_changes_nothing
    (req : CreateOrderRequest) (userID : N) (w : World) (err : error)
    (w' : World) :
  CreateOrder req userID w = (Return (Err err), w') →
  orders w' = orders w ∧ products w' = products w ∧ stdout w' = stdout w.
Proof.
  unfold CreateOrder. case_decide as Hlen; [by intros [= <- <-]|].
  pose proof (validateItems_reads_only (Items req) 0%float [] w)
    as (Hps0 & Hos0 & _ & _ & _ & Hout0 & _).
  destruct (validateItems (Items req) 0 [] w)
    as [[[totalAmount orderItems]|err0] w0]; simpl in *.
  - pose proof (order_Create_effect
                  (newOrder req userID totalAmount orderItems) w0) as Hcreate.
    destruct (orderRepository.Create _ w0) as [[o'|err1] wc]; simpl in *.
    + by destruct (updateProductStock (Items req) wc) as [[r|] wu].
    + destruct Hcreate as (? & ? & ?). intros [= <- <-].
      repeat split; congruence.
  - by intros [= <- <-].
Qed.

(** X3, at instances: product 9 does not exist; and an order that the
    unique order number refuses leaves the tables as they are, but has
    used up the id 2. *)
Lemma CreateOrder_error_changes_nothing_witness :
  CreateOrder (cart [line 1 1; line 9 1]) 3 shop
  = (Return (Err (ErrWrap "failed to get product 9: " ErrRecordNotFound)),
     shop)
  ∧ ∃ o w1 w2,
      CreateOrder (cart [line 1 1]) 3 shop = (Return (Ok o), w1) ∧
      CreateOrder (cart [line 1 1]) 4 w1
      = (Return (Err (ErrWrap "failed to create order: "
                        (ErrDuplicateKey "orders_order_number_key"))), w2) ∧
      orders w2 = orders w1 ∧ products w2 = products w1 ∧
      stdout w2 = stdout w1 ∧
      next_order_id w1 = 2%N ∧ next_order_id w2 = 3%N.
Proof.
  split; [reflexivity|].
  eexists _, _, _. split; [reflexivity|]. split; [reflexivity|].
  split; [|split; [|split; [|split; reflexivity]]].
  all: eapply (CreateOrder_error_changes_nothing (cart [line 1 1]) 4);
    reflexivity.
Defined.

(** ** The effect of each operation, whatever fails *)






(** ** The status machine *)



Lemma transition_progress from to :
  isValidStatusTransition from to = true → (progress from < progress to)%nat.
Proof.
  intros H. apply isValidStatusTransition_table in H.
  unfold transition_table in H.
  repeat (apply elem_of_cons in H as [[= -> ->]|H];
          [vm_compute; lia|]).
  by apply elem_of_nil in H.
Qed.

Lemma progress_bound s : (progress s <= 4)%nat.
Proof. unfold progress. repeat case_decide; lia. Qed.

Lemma chain_progress path :
  is_chain path = true →
  match path with
  | [] => True
  | from :: rest =>
      (length path + progress from <= 5)%nat ∧
      ∀ s, s ∈ rest → (progress from < progress s)%nat
  end.
Proof.
  induction path as [|from rest IH]; [done|]. intros Hchain.
  destruct rest as [|to rest'].
  - split; [pose proof (progress_bound from); simpl; lia|].
    intros s Hin. by apply elem_of_nil in Hin.
  - simpl in Hchain. apply andb_true_iff in Hchain as [Hstep Hrest].
    apply transition_progress in Hstep.
    destruct (IH Hrest) as [Hlen Hlater]. split; [simpl in *; lia|].
    intros s Hin. apply elem_of_cons in Hin as [->|Hin]; [done|].
    specialize (Hlater s Hin). lia.
Qed.

(** X7.  A sequence of statuses in which every step is a transition the
    service permits has at most five statuses (four steps) and visits no
    status twice: an order never returns to a status it has left. *)
Theorem transition_chains_are_short (path : list OrderStatus) :
  is_chain path = true → (length path <= 5)%nat ∧ NoDup path.
Proof.
  intros Hchain. split.
  - destruct path as [|from rest]; [simpl; lia|].
    destruct (chain_progress _ Hchain) as [Hlen _]. lia.
  - induction path as [|from rest IH]; [constructor|].
    destruct (chain_progress _ Hchain) as [_ Hlater]. constructor.
    + intros Hin. specialize (Hlater from Hin). lia.
    + apply IH. destruct rest as [|to rest']; [done|].
      simpl in Hchain. by apply andb_true_iff in Hchain as [_ ?].
Qed.

(** X7, at the longest chain. *)
Lemma transition_chains_are_short_witness :
  is_chain ["pending"; "confirmed"; "processing"; "shipped"; "delivered"]
  = true
  ∧ (length ["pending"; "confirmed"; "processing"; "shipped"; "delivered"]
     <= 5)%nat
  ∧ NoDup ["pending"; "confirmed"; "processing"; "shipped"; "delivered"].
Proof.
  split; [reflexivity|].
  exact (transition_chains_are_short
           ["pending"; "confirmed"; "processing"; "shipped"; "delivered"]
           eq_refl).
Defined.

(** X8.  The predicates of the order model and the transition table of
    the service disagree.  The table lets an order go to cancelled
    exactly when [CanCancel] holds or the order is processing, so a
    processing order can be cancelled through a status update although
    [CanCancel] (and [CancelOrder]) refuse it.  The table lets an order
    go to shipped exactly when [CanShip] holds and the order is not
    confirmed, so a confirmed order that [CanShip] accepts cannot be
    moved to shipped. *)
Theorem CanCancel_CanShip_against_the_table (o : Order) :
  (isValidStatusTransition (Status o) OrderStatusCancelled = true
   ↔ CanCancel o = true ∨ Status o = OrderStatusProcessing)
  ∧ (isValidStatusTransition (Status o) OrderStatusShipped = true
     ↔ CanShip o = true ∧ Status o ≠ OrderStatusConfirmed).
Proof.
  unfold CanCancel, CanShip. split.
  - rewrite isValidStatusTransition_table. unfold transition_table.
    rewrite !elem_of_cons, elem_of_nil, orb_true_iff, !bool_decide_eq_true.
    unfold OrderStatusPending, OrderStatusConfirmed, OrderStatusProcessing,
      OrderStatusCancelled.
    split.
    + intros H. decompose [or] H; try done; simplify_eq; auto.
    + intros [[->| ->]| ->]; auto 10.
  - rewrite isValidStatusTransition_table. unfold transition_table.
    rewrite !elem_of_cons, elem_of_nil, orb_true_iff, !bool_decide_eq_true.
    unfold OrderStatusConfirmed, OrderStatusProcessing, OrderStatusShipped.
    split.
    + intros H. decompose [or] H; try done; simplify_eq.
      split; [auto|congruence].
    + intros [[->| ->] Hne]; [done|auto 10].
Qed.











(** ** Stock bookkeeping of whole carts *)

Lemma wrap64_wrap64_add a b : wrap64 (wrap64 a + b) = wrap64 (a + b).
Proof.
  unfold wrap64.
  replace ((a + 2 ^ 63) mod 2 ^ 64 - 2 ^ 63 + b + 2 ^ 63)
    with ((a + 2 ^ 63) mod 2 ^ 64 + b) by lia.
  rewrite Zplus_mod_idemp_l. do 2 f_equal. lia.
Qed.

Lemma shifted_ext d d' m m' :
  (∀ k, d k = d' k) → shifted d m m' → shifted d' m m'.
Proof. intros Heq Hs k. rewrite <- Heq. apply Hs. Qed.

Lemma shifted_start w :
  stocks_in_range w → shifted (fun _ => 0) (products w) (products w).
Proof.
  intros Hrange k. destruct (products w !! k) as [p|] eqn:Hp; [|done].
  simpl. rewrite Z.add_0_r, (wrap64_in_range _ (Hrange k p Hp)).
  f_equal. by destruct p.
Qed.

(** One stock write on a shifted table. *)
Lemma shifted_step d m0 m k p0 q :
  shifted d m0 m → m0 !! k = Some p0 →
  m !! k = Some (set_Stock (wrap64 (Stock p0 + d k)) p0) ∧
  shifted (fun j => if decide (k = j) then d j + q else d j) m0
    (alter (set_Stock
              (wrap64 (Stock (set_Stock (wrap64 (Stock p0 + d k)) p0) + q)))
       k m).
Proof.
  intros Hs Hp0. split; [by rewrite (Hs k), Hp0|].
  intros j. rewrite lookup_alter. case_decide as Hj.
  - subst j. rewrite (Hs k), Hp0. simpl.
    by rewrite wrap64_wrap64_add, Z.add_assoc.
  - apply Hs.
Qed.

Lemma updateProductStock_shift items :
  ∀ w m0 d,
    read_faults w = [] → write_faults w = [] →
    shifted d m0 (products w) →
    (∀ l, l ∈ items → is_Some (m0 !! ReqProductID l)) →
    ∃ w', updateProductStock items w = (Return (Ok tt), w') ∧
          shifted (fun k => d k - demand (request_lines items) k) m0
            (products w') ∧
          orders w' = orders w ∧ read_faults w' = [] ∧
          write_faults w' = [] ∧ gateway_calls w' = gateway_calls w ∧
          stdout w' = stdout w.
Proof.
  induction items as [|l0 rest IH]; intros w m0 d Hr Hw Hs Hall.
  - exists w. split; [done|]. split; [|done].
    eapply shifted_ext; [|exact Hs]. intros k. simpl. lia.
  - destruct (Hall l0) as [p0 Hp0]; [by left|].
    destruct (shifted_step d m0 (products w) (ReqProductID l0) p0
                (- ReqQuantity l0) Hs Hp0) as [Hcur Hs'].
    simpl. rewrite (product_GetByID_found w _ _ Hr Hcur).
    rewrite (UpdateStock_no_fault w _ _ Hw).
    match goal with
    | |- context [updateProductStock _ ?w2] =>
        destruct (IH w2 m0 _ Hr Hw Hs') as (w' & -> & Hs'' & Hrest)
    end.
    { intros l Hin. apply Hall. by right. }
    exists w'. split; [done|]. split; [|exact Hrest].
    eapply shifted_ext; [|exact Hs'']. intros k. simpl.
    case_decide; lia.
Qed.

Lemma created_from_lines w lines items :
  Forall2 (created_from w) lines items →
  order_lines items = request_lines lines ∧
  ∀ l, l ∈ lines → is_Some (products w !! ReqProductID l).
Proof.
  induction 1 as [|l item lines items (Hid & Hq & p & Hp & _) _ [IH1 IH2]].
  - split; [done|]. intros l Hin. by apply elem_of_nil in Hin.
  - split; [simpl; by rewrite Hid, Hq, IH1|].
    intros l' Hin. apply elem_of_cons in Hin as [->|Hin]; [by eexists|auto].
Qed.

(** What a successful [CreateOrder] looks like when nothing fails. *)
Lemma CreateOrder_Ok_no_fault req userID w o w1 :
  read_faults w = [] → write_faults w = [] → stocks_in_range w →
  CreateOrder req userID w = (Return (Ok o), w1) →
  shifted (fun k => - demand (request_lines (Items req)) k)
    (products w) (products w1) ∧
  order_lines (OrderItems o) = request_lines (Items req) ∧
  (∀ l, l ∈ Items req → is_Some (products w !! ReqProductID l)) ∧
  orders w1 = <[ID o := o]> (orders w) ∧
  Status o = OrderStatusPending ∧ CustomerID o = userID ∧
  read_faults w1 = [] ∧ write_faults w1 = [] ∧
  gateway_calls w1 = gateway_calls w ∧ stdout w1 = stdout w.
Proof.
  intros Hr Hw Hrange. unfold CreateOrder. case_decide as Hlen; [done|].
  pose proof (validateItems_no_fault_world (Items req) 0%float [] w Hr)
    as Hsame.
  destruct (validateItems (Items req) 0 [] w)
    as [[[totalAmount orderItems]|err] w0] eqn:Hval; [|done].
  simpl in Hsame. subst w0.
  apply validateItems_Ok in Hval as (_ & _ & _ & new & -> & Hnew & _).
  destruct (created_from_lines _ _ _ Hnew) as [Hlines Hexist].
  unfold orderRepository.Create. rewrite (db_write_no_fault w Hw).
  do 2 (case_decide; [done|]).
  match goal with
  | |- context [updateProductStock (Items req) ?w2] =>
      destruct (updateProductStock_shift (Items req) w2 (products w)
                  (fun _ => 0) Hr Hw (shifted_start w Hrange) Hexist)
        as (w' & -> & Hs & Hos & Hr' & Hw' & Hgw & Hout)
  end.
  intros [= <- <-]. simpl in *.
  repeat split; try done.
Qed.

(** X11.  With a database that answers every round trip, a successful
    [CreateOrder] takes from each product the total quantity of the
    request lines that name it, in 64-bit arithmetic: every line is
    checked against the stock before the order, so lines that repeat a
    product are subtracted one after the other. *)
Theorem CreateOrder_takes_the_demand
    (req : CreateOrderRequest) (userID : N) (w : World) (o : Order)
    (w1 : World) :
  read_faults w = [] → write_faults w = [] → stocks_in_range w →
  CreateOrder req userID w = (Return (Ok o), w1) →
  ∀ k, products w1 !! k
       = (fun p =>
            set_Stock
              (wrap64 (Stock p - demand (request_lines (Items req)) k)) p)
         <$> products w !! k.
Proof.
  intros Hr Hw Hrange Hrun k.
  destruct (CreateOrder_Ok_no_fault req userID w o w1 Hr Hw Hrange Hrun)
    as (Hs & _).
  rewrite (Hs k). destruct (products w !! k); [|done]. simpl.
  by rewrite Z.add_opp_r.
Qed.

Lemma shop_stocks_in_range : stocks_in_range shop.
Proof.
  intros k p Hp. cbn in Hp.
  apply lookup_insert_Some in Hp as [[_ <-]|[_ Hp]];
    [split; [discriminate|reflexivity]|].
  apply lookup_singleton_Some in Hp as [_ <-].
  split; [discriminate|reflexivity].
Defined.

(** X11, at an instance: three and three of the five widgets are both
    accepted and leave a stock of minus one. *)
Lemma CreateOrder_takes_the_demand_witness :
  ∃ o w1,
    CreateOrder (cart [line 1 3; line 1 3]) 3 shop = (Return (Ok o), w1) ∧
    Stock <$> products w1 !! 1%N = Some (-1).
Proof.
  eexists _, _. split; [reflexivity|].
  rewrite (CreateOrder_takes_the_demand (cart [line 1 3; line 1 3]) 3 shop
             _ _ eq_refl eq_refl shop_stocks_in_range eq_refl 1%N).
  reflexivity.
Defined.

(** ** Operations on an order that exists *)

(** X12.  No operation on an order gets past the lookup of the order.
    Whatever the id, the caller, the requested status, the payment
    request, the answers of the gateway, the content of the tables and the
    failures of the database: [UpdateOrderStatus], [ProcessPayment] and
    [CancelOrder] return an error "failed to get order: ..." and leave
    the orders table, the products table, the output and the calls to the
    gateway as they are.  An order therefore keeps the status it was
    stored with, no payment is attempted and no stock is restored. *)
Theorem order_operations_change_nothing
    (id : N) (status : OrderStatus) (userID : N) (userRole : UserRole)
    (svc : PaymentService) (paymentReq : PaymentRequest) (w : World) :
  ((∃ err, (UpdateOrderStatus id status userID userRole w).1
           = Some (ErrWrap "failed to get order: " err)) ∧
   reads_only w (UpdateOrderStatus id status userID userRole w).2) ∧
  ((∃ err, (ProcessPayment svc id paymentReq w).1
           = Err (ErrWrap "failed to get order: " err)) ∧
   reads_only w (ProcessPayment svc id paymentReq w).2) ∧
  ((∃ err, (CancelOrder id userID userRole w).1
           = Some (ErrWrap "failed to get order: " err)) ∧
   reads_only w (CancelOrder id userID userRole w).2).
Proof.
  unfold UpdateOrderStatus, ProcessPayment, CancelOrder.
  destruct (order_GetByID_fails id w) as (err & w' & -> & Hro).
  simpl. repeat split; try apply Hro; by exists err.
Qed.

(** ** The product service: stock *)

(** X14.  Whatever fails in the database: when [productService.UpdateStock]
    returns nil, the product existed, belongs to the calling seller, the
    new stock is not negative, and the products table differs exactly by
    that stock; when it returns an error the products table is unchanged.
    The orders table is never touched. *)
Theorem productService_UpdateStock_effect
    (id : N) (stock : Z) (sellerID : N) (w : World) :
  orders (productService.UpdateStock id stock sellerID w).2 = orders w ∧
  match (productService.UpdateStock id stock sellerID w).1 with
  | None =>
      ∃ p, products w !! id = Some p ∧ SellerID p = sellerID ∧
           0 <= stock ∧
           products (productService.UpdateStock id stock sellerID w).2
           = <[id := set_Stock stock p]> (products w)
  | Some _ =>
      products (productService.UpdateStock id stock sellerID w).2
      = products w
  end.
Proof.
  unfold productService.UpdateStock.
  pose proof (product_GetByID_reads_only id w) as (Hps1 & Hos1 & _).
  destruct (productRepository.GetByID id w) as [[p|err] w1] eqn:Hget;
    simpl in *; [|done].
  apply product_GetByID_Ok in Hget.
  case_decide as Hseller; [done|].
  destruct (stock <? 0) eqn:Hneg; [done|]. apply Z.ltb_ge in Hneg.
  unfold productRepository.UpdateStock, db_write.
  destruct (write_faults w1) as [|[err|] fs]; simpl; [|done|].
  all: split; [done|]; exists p; split; [done|].
  all: split; [by destruct (decide (SellerID p = sellerID))|].
  all: split; [done|]; rewrite Hps1; apply map_eq; intros k.
  all: rewrite lookup_alter, lookup_insert; case_decide; subst;
    by rewrite ?Hget.
Qed.

Lemma filterBySeller_filter products sellerID :
  ∀ filteredProducts,
    productService.filterBySeller products sellerID filteredProducts
    = (filteredProducts
       ++ filter (fun p => SellerID p = sellerID) products)%list.
Proof.
  induction products as [|p rest IH]; intros acc; simpl.
  - by rewrite app_nil_r.
  - rewrite filter_cons. case_decide.
    + by rewrite IH, <- app_assoc.
    + apply IH.
Qed.

(** X15.  With a query that does not fail, [GetLowStockProducts] returns
    exactly the products of the table whose stock is at most the
    threshold and, when a seller is given, that belong to that seller; the
    world is unchanged. *)
Theorem GetLowStockProducts_selects
    (threshold : Z) (sellerID : option N) (w : World) :
  read_faults w = [] →
  ∃ ps, productService.GetLowStockProducts threshold sellerID w = (Ok ps, w) ∧
        ∀ p, p ∈ ps ↔
             (∃ id, products w !! id = Some p) ∧ Stock p <= threshold ∧
             (∀ s, sellerID = Some s → SellerID p = s).
Proof.
  intros Hr.
  unfold productService.GetLowStockProducts, productRepository.GetLowStock.
  rewrite (db_read_no_fault w Hr).
  assert (Hin : ∀ p, p ∈ (map_to_list (products w)).*2
                     ↔ ∃ id, products w !! id = Some p).
  { intros p. rewrite list_elem_of_fmap. split.
    - intros ([id q] & -> & Hq). exists id. by apply elem_of_map_to_list.
    - intros [id Hq]. exists (id, p). split; [done|].
      by apply elem_of_map_to_list. }
  destruct sellerID as [s|]; eexists; (split; [reflexivity|]); intros p.
  - rewrite filterBySeller_filter, app_nil_l, !list_elem_of_filter, Hin.
    split.
    + intros (Hs & Hle & Hex). repeat split; [done..|]. by intros ? [= <-].
    + intros (Hex & Hle & Hs). repeat split; [by apply Hs|done..].
  - rewrite list_elem_of_filter, Hin. split.
    + intros (Hle & Hex). by repeat split.
    + intros (Hex & Hle & _). by split.
Qed.

(** X15, at an instance: of the two products only the gadget of seller 8
    has a stock of at most 3. *)
Lemma GetLowStockProducts_selects_witness :
  productService.GetLowStockProducts 3 (Some 8%N) shop = (Ok [gadget], shop)
  ∧ productService.GetLowStockProducts 3 (Some 7%N) shop = (Ok [], shop)
  ∧ ∃ ps, productService.GetLowStockProducts 5 None shop = (Ok ps, shop) ∧
          ∀ p, p ∈ ps ↔
               (∃ id, products shop !! id = Some p) ∧ Stock p <= 5 ∧
               (∀ s, @None N = Some s → SellerID p = s).
Proof.
  split; [reflexivity|]. split; [reflexivity|].
  exact (GetLowStockProducts_selects 5 None shop eq_refl).
Defined.

(** ** Analytics without a seller *)

Lemma status_counts_add_up (l : list Order) :
  (length (filter (fun o => Status o = OrderStatusPending) l)
   + length (filter (fun o => Status o = OrderStatusConfirmed) l)
   + length (filter (fun o => Status o = OrderStatusShipped) l)
   + length (filter (fun o => Status o = OrderStatusDelivered) l)
   + length (filter (fun o => Status o = OrderStatusCancelled) l)
   + length (filter (fun o => Status o ∉ counted_statuses) l))%nat
  = length l.
Proof.
  induction l as [|o l IH]; [done|].
  rewrite !filter_cons.
  unfold counted_statuses, OrderStatusPending, OrderStatusConfirmed,
    OrderStatusShipped, OrderStatusDelivered, OrderStatusCancelled in *.
  repeat case_decide; try (simpl in *; lia); exfalso;
    match goal with
    | H : _ ∉ _ |- _ => rewrite !elem_of_cons, elem_of_nil in H
    | H : _ ∈ _ |- _ => rewrite !elem_of_cons, elem_of_nil in H
    end; intuition congruence.
Qed.

(** X16.  With queries that do not fail and no seller given,
    [GetOrderAnalytics] returns, unchanged by the date bounds, the number
    of all orders and the numbers of pending, confirmed, shipped,
    delivered and cancelled orders; these five add up to the total only
    together with the orders in any other status (processing, refunded),
    which are in the total but in no count. *)
Theorem GetOrderAnalytics_counts_add_up
    (startDate endDate : option Z) (w : World) :
  read_faults w = [] →
  ∃ a, GetOrderAnalytics None startDate endDate w = (Ok a, w) ∧
       PendingOrders a = orders_in OrderStatusPending w ∧
       ConfirmedOrders a = orders_in OrderStatusConfirmed w ∧
       ShippedOrders a = orders_in OrderStatusShipped w ∧
       DeliveredOrders a = orders_in OrderStatusDelivered w ∧
       CancelledOrders a = orders_in OrderStatusCancelled w ∧
       TotalOrders a = Z.of_nat (size (orders w)) ∧
       PendingOrders a + ConfirmedOrders a + ShippedOrders a
       + DeliveredOrders a + CancelledOrders a + orders_not_counted w
       = TotalOrders a.
Proof.
  intros Hr.
  unfold GetOrderAnalytics, orderRepository.GetTotalRevenue,
    orderRepository.Count, orderRepository.CountByStatus.
  rewrite !(db_read_no_fault w Hr). eexists. split; [reflexivity|].
  do 6 (split; [reflexivity|]). cbn.
  unfold orders_not_counted, all_orders.
  pose proof (status_counts_add_up (map_to_list (orders w)).*2) as Hsum.
  rewrite length_fmap, length_map_to_list in Hsum. lia.
Qed.

(** X16, at an instance: the processing order 1 is the one order of the
    table and is in none of the five counts. *)
Lemma GetOrderAnalytics_counts_add_up_witness :
  ∃ a, GetOrderAnalytics None None None (shop_with_order "processing")
       = (Ok a, shop_with_order "processing") ∧
       TotalOrders a = 1 ∧
       PendingOrders a + ConfirmedOrders a + ShippedOrders a
       + DeliveredOrders a + CancelledOrders a = 0.
Proof.
  destruct (GetOrderAnalytics_counts_add_up None None
              (shop_with_order "processing") eq_refl)
    as (a & Hrun & Hp & Hc & Hs & Hd & Hx & Htotal & _).
  exists a. split; [exact Hrun|]. split; [exact Htotal|].
  rewrite Hp, Hc, Hs, Hd, Hx. reflexivity.
Defined.

(** X17.  Once the revenue query and the query for the total have
    succeeded, [GetOrderAnalytics] returns analytics whatever the five
    per-status queries do: a per-status query that fails is not reported,
    its count is 0. *)
Theorem GetOrderAnalytics_hides_failed_counts
    (startDate endDate : option Z) (w : World)
    (f1 f2 f3 f4 f5 : option error) (rest : list (option error)) :
  read_faults w = None :: None :: f1 :: f2 :: f3 :: f4 :: f5 :: rest →
  ∃ a w', GetOrderAnalytics None startDate endDate w = (Ok a, w') ∧
          TotalOrders a = Z.of_nat (size (orders w)) ∧
          PendingOrders a
          = count_or_zero f1 (orders_in OrderStatusPending w) ∧
          ConfirmedOrders a
          = count_or_zero f2 (orders_in OrderStatusConfirmed w) ∧
          ShippedOrders a
          = count_or_zero f3 (orders_in OrderStatusShipped w) ∧
          DeliveredOrders a
          = count_or_zero f4 (orders_in OrderStatusDelivered w) ∧
          CancelledOrders a
          = count_or_zero f5 (orders_in OrderStatusCancelled w).
Proof.
  intros Hr.
  unfold GetOrderAnalytics, orderRepository.GetTotalRevenue,
    orderRepository.Count, orderRepository.CountByStatus, db_read.
  rewrite Hr. cbn.
  destruct f1, f2, f3, f4, f5; cbn; eexists _, _;
    (split; [reflexivity|]); repeat split.
Qed.

(** X17, at an instance: the query for the pending orders fails, and the
    one pending order of the table is reported as none. *)
Lemma GetOrderAnalytics_hides_failed_counts_witness :
  ∃ a w',
    GetOrderAnalytics None None None
      (set_read_faults
         [None; None; Some (ErrDriver "connection reset"); None; None;
          None; None] (shop_with_order "pending")) = (Ok a, w') ∧
    TotalOrders a = 1 ∧ PendingOrders a = 0.
Proof.
  destruct (GetOrderAnalytics_hides_failed_counts None None
              (set_read_faults
                 [None; None; Some (ErrDriver "connection reset"); None;
                  None; None; None] (shop_with_order "pending"))
              _ _ _ _ _ _ eq_refl)
    as (a & w' & Hrun & Htotal & Hp & _).
  exists a, w'. split; [exact Hrun|]. split; [exact Htotal|exact Hp].
Defined.

(** ** Recomputing the totals of a created order *)

Lemma sumOrderItems_created w lines items :
  Forall2 (created_from w) lines items →
  ∀ subtotalAmount itemCount,
    sumOrderItems items subtotalAmount itemCount
    = (foldl (fun acc item =>
                (acc + UnitPrice item
                       * float64_of_int (Quantity item))%float)
         subtotalAmount items,
       foldl (fun n l => wrap64 (n + ReqQuantity l)) itemCount lines).
Proof.
  induction 1 as [|l item lines items (_ & Hq & p & _ & _ & Htotal) _ IH];
    intros t n; [done|].
  simpl. by rewrite IH, Htotal, Hq.
Qed.

(** X21.  For every order that [CreateOrder] returns,
    [Order.CalculateTotals] recomputes from the items the subtotal that
    the order already carries, and its item count is the sum of the
    requested quantities; status, items and the other amounts are left as
    they are. *)
Theorem CalculateTotals_of_created_order
    (req : CreateOrderRequest) (userID : N) (w : World) (o : Order)
    (w' : World) :
  CreateOrder req userID w = (Return (Ok o), w') →
  SubtotalAmount (CalculateTotals o).1 = SubtotalAmount o ∧
  (CalculateTotals o).2 = requested_units (Items req) ∧
  TotalAmount (CalculateTotals o).1
  = (SubtotalAmount o + TaxAmount o + ShippingAmount o
     - DiscountAmount o)%float ∧
  OrderItems (CalculateTotals o).1 = OrderItems o ∧
  Status (CalculateTotals o).1 = Status o.
Proof.
  unfold CreateOrder. case_decide as Hlen; [done|].
  destruct (validateItems (Items req) 0 [] w)
    as [[[totalAmount orderItems]|err] w1] eqn:Hval; [|done].
  apply validateItems_Ok in Hval
    as (_ & _ & _ & new & -> & Hnew & ->).
  unfold orderRepository.Create.
  destruct (db_write w1) as [[err|] w2]; [done|].
  do 2 (case_decide; [done|]).
  destruct (updateProductStock (Items req) _) as [[r|] w3]; [|done].
  intros [= <- <-]. unfold CalculateTotals. cbn.
  rewrite (sumOrderItems_created _ _ _ Hnew). cbn. by repeat split.
Qed.

(** X21, at an instance. *)
Lemma CalculateTotals_of_created_order_witness :
  ∃ o w',
    CreateOrder (cart [line 1 2; line 2 1]) 3 shop = (Return (Ok o), w') ∧
    SubtotalAmount (CalculateTotals o).1 = 40%float ∧
    (CalculateTotals o).2 = 3.
Proof.
  eexists _, _. split; [reflexivity|].
  destruct (CalculateTotals_of_created_order (cart [line 1 2; line 2 1]) 3
              shop _ _ eq_refl) as (Hsub & Hcount & _).
  split; [rewrite Hsub|rewrite Hcount]; reflexivity.
Defined.
